(** * forwarded-for: resolution of the client address behind proxies

    A shallow embedding of [index.js]: the [Forwarded] constructor, the
    [proxies] table, the header scan [forwarded] and the exported [parse].

    JavaScript values are embedded as a small universe of plain data
    (undefined, null, booleans, numbers, strings and objects holding own
    string-keyed properties); numbers are IEEE binary64 values, written with the
    Standard Library's [spec_float]; an abrupt completion (a thrown
    [TypeError]) is an explicit outcome. *)

From Stdlib Require Import ZArith Ascii String List Bool.
From Stdlib Require Import SpecFloat.
From stdpp Require Import base option gmap strings list.

Local Open Scope string_scope.

(** ** Completions: a call either returns or throws *)

Inductive exn := TypeError.

Inductive completion (A : Type) :=
| Return (a : A)
| Throw (e : exn).
Arguments Return {A} a.
Arguments Throw {A} e.

Definition bind {A B : Type} (c : completion A) (k : A -> completion B)
  : completion B :=
  match c with
  | Return a => k a
  | Throw e => Throw e
  end.

Notation "'let*' x ':=' c 'in' k" := (bind c (fun x => k))
  (at level 10, x name, c at level 100, k at level 200,
   format "'[v' 'let*'  x  ':='  c  'in' '/' k ']'").

(** ** Numbers *)

Module Number.

(** The Number type is IEEE 754 binary64. *)
Definition prec : Z := 53.
Definition emax : Z := 1024.

Definition t := spec_float.

Definition NaN : t := S754_nan.
Definition zero : t := S754_zero false.
Definition Infinity (neg : bool) : t := S754_infinity neg.

(** The Number nearest to an integer (ties to even). *)
Definition of_Z (z : Z) : t := binary_normalize prec emax z 0 false.

Definition is_nan (n : t) : bool :=
  match n with S754_nan => true | _ => false end.

Definition is_zero (n : t) : bool :=
  match n with S754_zero _ => true | _ => false end.

(** ToBoolean on a Number: [+0], [-0] and [NaN] are falsy. *)
Definition truthy (n : t) : bool := negb (is_zero n || is_nan n).

Definition is_negative (n : t) : bool :=
  match n with
  | S754_infinity s | S754_finite s _ _ => s
  | _ => false
  end.

(** A finite Number [m * 2^e] is an integer when the bits below the
    binary point are all zero. *)
Definition is_integer (n : t) : bool :=
  match n with
  | S754_zero _ => true
  | S754_finite _ m e =>
      (0 <=? e)%Z || (Z.land (Z.pos m) (Z.ones (- e)) =? 0)%Z
  | _ => false
  end.

Definition is_nonneg_integer (n : t) : bool :=
  is_integer n && negb (is_negative n).

End Number.

(** ** Values *)

#[warnings="-register-all"]
Inductive value :=
| VUndefined
| VNull
| VBoolean (b : bool)
| VNumber (n : Number.t)
| VString (s : string)
| VObject (props : gmap string value).

(** ** Strings

    Strings are sequences of 8-bit code units, which is what the HTTP parser
    hands over for header values. *)

Definition code (c : ascii) : N := N_of_ascii c.

Definition in_range (lo hi c : ascii) : bool :=
  (code lo <=? code c)%N && (code c <=? code hi)%N.

Definition is_digit (c : ascii) : bool := in_range "0" "9" c.

(** [String.prototype.split] with a one-character separator: the pieces
    between the occurrences of [sep], in order; never the empty list. *)
Fixpoint String_split (sep : ascii) (s : string) : list string :=
  match s with
  | EmptyString => [EmptyString]
  | String c s' =>
      if Ascii.eqb c sep then EmptyString :: String_split sep s'
      else match String_split sep s' with
           | tok :: toks => String c tok :: toks
           | [] => [String c EmptyString]
           end
  end.

(** [Array.prototype.shift] as the code uses it: the first element, or
    [undefined] on an empty array (the rest of the array is dropped). *)
Definition shift (l : list string) : value :=
  match l with
  | [] => VUndefined
  | x :: _ => VString x
  end.

(** WhiteSpace and LineTerminator code units below 256: TAB, LF, VT, FF, CR,
    SP and NBSP. *)
Definition is_StrWhiteSpaceChar (c : ascii) : bool :=
  existsb (N.eqb (code c)) [9; 10; 11; 12; 13; 32; 160]%N.

Fixpoint trim_start (s : string) : string :=
  match s with
  | String c s' => if is_StrWhiteSpaceChar c then trim_start s' else s
  | EmptyString => EmptyString
  end.

Fixpoint trim_end (s : string) : string :=
  match s with
  | String c s' =>
      match trim_end s' with
      | EmptyString => if is_StrWhiteSpaceChar c then EmptyString else String c EmptyString
      | t => String c t
      end
  | EmptyString => EmptyString
  end.

Definition trim (s : string) : string := trim_end (trim_start s).

(** ** StringToNumber

    The grammar of StringNumericLiteral: optional white space around either
    nothing (the value is [+0]), a signed decimal literal ([Infinity], or digits
    with an optional fraction and exponent), or an unsigned binary, octal or
    hexadecimal integer. Anything else is [NaN]. The mathematical value is
    rounded once, to the nearest binary64 value. *)

Module StringToNumber.

Definition digit_of (radix : Z) (c : ascii) : option Z :=
  let d :=
    if is_digit c then Some (Z.of_N (code c) - 48)%Z
    else if in_range "a" "f" c then Some (Z.of_N (code c) - 87)%Z
    else if in_range "A" "F" c then Some (Z.of_N (code c) - 55)%Z
    else None in
  match d with
  | Some v => if (v <? radix)%Z then Some v else None
  | None => None
  end.

(** The longest run of digits at the head of [s]: the accumulated value, the
    number of digits read and what follows them. *)
Fixpoint digits (radix : Z) (acc : Z) (n : nat) (s : string) : Z * nat * string :=
  match s with
  | String c s' =>
      match digit_of radix c with
      | Some d => digits radix (radix * acc + d)%Z (S n) s'
      | None => (acc, n, s)
      end
  | EmptyString => (acc, n, s)
  end.

(** The Number for [(-1)^neg * m * 10^e], for [m >= 0]. *)
Definition round_decimal (neg : bool) (m e : Z) : Number.t :=
  if (m =? 0)%Z then S754_zero neg
  else if (0 <=? e)%Z then
    binary_normalize Number.prec Number.emax (cond_Zopp neg (m * 10 ^ e)) 0 false
  else
    SFdiv Number.prec Number.emax
      (S754_finite neg (Z.to_pos m) 0)
      (S754_finite false (Z.to_pos (10 ^ (- e))) 0).

(** ExponentPart_opt, up to the end of the string. *)
Definition exponent (s : string) : option Z :=
  match s with
  | EmptyString => Some 0%Z
  | String c s' =>
      if Ascii.eqb c "e" || Ascii.eqb c "E" then
        let '(neg, s'') :=
          match s' with
          | String "+" t => (false, t)
          | String "-" t => (true, t)
          | _ => (false, s')
          end in
        match digits 10 0 0 s'' with
        | (v, S _, EmptyString) => Some (cond_Zopp neg v)
        | _ => None
        end
      else None
  end.

Definition StrUnsignedDecimalLiteral (neg : bool) (s : string) : Number.t :=
  if String.eqb s "Infinity" then Number.Infinity neg
  else
    let '(i, ni, r1) := digits 10 0 0 s in
    let '(m, nf, r2) :=
      match r1 with
      | String "." t => digits 10 i 0 t
      | _ => (i, 0, r1)
      end in
    match ni + nf, exponent r2 with
    | S _, Some e => round_decimal neg m (e - Z.of_nat nf)
    | _, _ => Number.NaN
    end.

Definition StrDecimalLiteral (s : string) : Number.t :=
  match s with
  | String "+" t => StrUnsignedDecimalLiteral false t
  | String "-" t => StrUnsignedDecimalLiteral true t
  | _ => StrUnsignedDecimalLiteral false s
  end.

Definition NonDecimalIntegerLiteral (s : string) : option Number.t :=
  match s with
  | String "0" (String p t) =>
      let radix :=
        if Ascii.eqb p "x" || Ascii.eqb p "X" then Some 16%Z
        else if Ascii.eqb p "o" || Ascii.eqb p "O" then Some 8%Z
        else if Ascii.eqb p "b" || Ascii.eqb p "B" then Some 2%Z
        else None in
      match radix with
      | Some r =>
          match digits r 0 0 t with
          | (v, S _, EmptyString) => Some (Number.of_Z v)
          | _ => Some Number.NaN
          end
      | None => None
      end
  | _ => None
  end.

Definition StringToNumber (s : string) : Number.t :=
  match trim s with
  | EmptyString => Number.zero
  | t =>
      match NonDecimalIntegerLiteral t with
      | Some n => n
      | None => StrDecimalLiteral t
      end
  end.

End StringToNumber.

(** ** Regular expressions

    Anchored matching ([/^r$/.test(s)]) by derivatives, for the two patterns
    of the IP validator. *)

Module RegExp.

Inductive t :=
| Void
| Eps
| Class (p : ascii -> bool)
| Seq (r1 r2 : t)
| Alt (r1 r2 : t)
| Star (r : t).

Fixpoint nullable (r : t) : bool :=
  match r with
  | Void | Class _ => false
  | Eps | Star _ => true
  | Seq r1 r2 => nullable r1 && nullable r2
  | Alt r1 r2 => nullable r1 || nullable r2
  end.

(** Constructors that drop the branches that can no longer match. *)
Definition seq (r1 r2 : t) : t :=
  match r1, r2 with
  | Void, _ | _, Void => Void
  | Eps, r => r
  | _, _ => Seq r1 r2
  end.

Definition alt (r1 r2 : t) : t :=
  match r1, r2 with
  | Void, r | r, Void => r
  | _, _ => Alt r1 r2
  end.

Fixpoint deriv (c : ascii) (r : t) : t :=
  match r with
  | Void | Eps => Void
  | Class p => if p c then Eps else Void
  | Seq r1 r2 =>
      alt (seq (deriv c r1) r2) (if nullable r1 then deriv c r2 else Void)
  | Alt r1 r2 => alt (deriv c r1) (deriv c r2)
  | Star r1 => seq (deriv c r1) (Star r1)
  end.

Fixpoint test (r : t) (s : string) : bool :=
  match s with
  | EmptyString => nullable r
  | String c s' => test (deriv c r) s'
  end.

(** Pattern syntax. *)
Definition chr (c : ascii) : t := Class (Ascii.eqb c).
Definition range (lo hi : ascii) : t := Class (in_range lo hi).
Definition seqs (rs : list t) : t := foldr Seq Eps rs.
Definition alts (rs : list t) : t := foldr Alt Void rs.
Definition opt (r : t) : t := Alt r Eps.
Definition plus (r : t) : t := Seq r (Star r).

(** [r{n}] and [r{lo,hi}]. *)
Fixpoint rep (n : nat) (r : t) : t :=
  match n with
  | O => Eps
  | S n' => Seq r (rep n' r)
  end.

Fixpoint upto (n : nat) (r : t) : t :=
  match n with
  | O => Eps
  | S n' => opt (Seq r (upto n' r))
  end.

Definition rep_range (lo hi : nat) (r : t) : t :=
  Seq (rep lo r) (upto (hi - lo) r).

End RegExp.

(** ** The [net] module *)

Module net.
Import RegExp.

(** [\d] *)
Definition d : RegExp.t := range "0" "9".

(** [(?:25[0-5]|2[0-4]\d|1\d\d|[1-9]?\d)] *)
Definition v4Seg : RegExp.t :=
  alts [ seqs [chr "2"; chr "5"; range "0" "5"];
         seqs [chr "2"; range "0" "4"; d];
         seqs [chr "1"; d; d];
         seqs [opt (range "1" "9"); d] ].

(** [(?:v4Seg\.){3}v4Seg] *)
Definition v4Str : RegExp.t :=
  seqs [rep 3 (seqs [v4Seg; chr "."]); v4Seg].

Definition IPv4Reg : RegExp.t := v4Str.

(** [(?:[0-9a-fA-F]{1,4})] *)
Definition v6Seg : RegExp.t :=
  rep_range 1 4 (alts [range "0" "9"; range "a" "f"; range "A" "F"]).

Definition colon : RegExp.t := chr ":".
Definition seg_colon : RegExp.t := seqs [v6Seg; colon].
Definition colon_seg : RegExp.t := seqs [colon; v6Seg].

(** [[0-9a-zA-Z-.:]] *)
Definition zone_char : RegExp.t :=
  alts [range "0" "9"; range "a" "z"; range "A" "Z"; chr "-"; chr "."; chr ":"].

Definition IPv6Reg : RegExp.t :=
  seqs [
    alts [
      seqs [rep 7 seg_colon; alts [v6Seg; colon]];
      seqs [rep 6 seg_colon; alts [v4Str; colon_seg; colon]];
      seqs [rep 5 seg_colon;
            alts [seqs [colon; v4Str]; rep_range 1 2 colon_seg; colon]];
      seqs [rep 4 seg_colon;
            alts [seqs [rep_range 0 1 colon_seg; colon; v4Str];
                  rep_range 1 3 colon_seg; colon]];
      seqs [rep 3 seg_colon;
            alts [seqs [rep_range 0 2 colon_seg; colon; v4Str];
                  rep_range 1 4 colon_seg; colon]];
      seqs [rep 2 seg_colon;
            alts [seqs [rep_range 0 3 colon_seg; colon; v4Str];
                  rep_range 1 5 colon_seg; colon]];
      seqs [rep 1 seg_colon;
            alts [seqs [rep_range 0 4 colon_seg; colon; v4Str];
                  rep_range 1 6 colon_seg; colon]];
      seqs [colon;
            alts [seqs [rep_range 0 5 colon_seg; colon; v4Str];
                  rep_range 1 7 colon_seg; colon]]
    ];
    opt (seqs [chr "%"; plus zone_char])
  ].

Definition isIPv4 (s : string) : bool := RegExp.test IPv4Reg s.
Definition isIPv6 (s : string) : bool := RegExp.test IPv6Reg s.

(** Modelled from the spec: the IP validator is the platform's [net.isIP],
    which is not part of the repository. It says whether a token is a
    syntactically valid IPv4 dotted quad (4) or IPv6 literal (6); the empty
    string and any other token give 0. The two patterns are those of the
    platform's implementation. *)
Definition isIP (s : string) : Z :=
  if isIPv4 s then 4 else if isIPv6 s then 6 else 0.

End net.

(** ** Operations on values

    Objects are plain data: a property is an own property, found by its name.
    None of the names the program looks up ([connection], [socket],
    [remoteAddress], [remotePort], [address], [port] and the header names) is
    inherited from a prototype, so own properties decide every lookup. *)

Definition ToBoolean (v : value) : bool :=
  match v with
  | VUndefined | VNull => false
  | VBoolean b => b
  | VNumber n => Number.truthy n
  | VString s => negb (String.eqb s "")
  | VObject _ => true
  end.

Definition typeof (v : value) : string :=
  match v with
  | VUndefined => "undefined"
  | VNull | VObject _ => "object"
  | VBoolean _ => "boolean"
  | VNumber _ => "number"
  | VString _ => "string"
  end.

(** Unary [+]. An object is first converted to a primitive: the inherited
    [valueOf] gives the object back, the inherited [toString] gives
    ["[object Object]"], which is not numeric; an own (data, hence not
    callable) [toString] property leaves no method to call. *)
Definition ToNumber (v : value) : completion Number.t :=
  match v with
  | VUndefined => Return Number.NaN
  | VNull => Return Number.zero
  | VBoolean b => Return (if b then Number.of_Z 1 else Number.zero)
  | VNumber n => Return n
  | VString s => Return (StringToNumber.StringToNumber s)
  | VObject props =>
      match props !! "toString" with
      | Some _ => Throw TypeError
      | None => Return Number.NaN
      end
  end.

(** [v.k]: reading a property of [undefined] or [null] throws; the other
    primitives have none of the properties read here. *)
Definition Get (v : value) (k : string) : completion value :=
  match v with
  | VUndefined | VNull => Throw TypeError
  | VObject props => Return (default VUndefined (props !! k))
  | _ => Return VUndefined
  end.

(** [k in v]: throws unless [v] is an object. *)
Definition HasProperty (k : string) (v : value) : completion bool :=
  match v with
  | VObject props => Return (bool_decide (is_Some (props !! k)))
  | _ => Throw TypeError
  end.

(** ** The program *)

(** What [new Forwarded(...)] builds. *)
Record Forwarded_t := { ip : value; secure : bool; port : Number.t }.

(** [function Forwarded(ip, port, secured)] *)
Definition Forwarded (ip port secured : value) : completion Forwarded_t :=
  let this_ip := if ToBoolean ip then ip else VString "127.0.0.1" in
  let this_secure := negb (negb (ToBoolean secured)) in
  let* n := ToNumber port in
  let this_port := if Number.truthy n then n else Number.zero in
  Return {| ip := this_ip; secure := this_secure; port := this_port |}.

Module Proxy.
Record t := { ip : string; port : string; proto : option string }.
End Proxy.

(** [var proxies = [...]] *)
Definition proxies : list Proxy.t :=
  [ {| Proxy.ip := "x-forwarded-for";
       Proxy.port := "x-forwarded-port";
       Proxy.proto := Some "x-forwarded-proto" |};
    {| Proxy.ip := "z-forwarded-for";
       Proxy.port := "z-forwarded-port";
       Proxy.proto := Some "z-forwarded-proto" |};
    {| Proxy.ip := "forwarded";
       Proxy.port := "forwarded-port";
       Proxy.proto := Some "forwarded-proto" |};
    {| Proxy.ip := "x-real-ip";
       Proxy.port := "x-real-port";
       Proxy.proto := None |} ].

(** The received headers: lower-case names, string values. *)
Abbreviation headers_t := (gmap string string).

(** [name in headers] *)
Definition has_header (headers : headers_t) (name : string) : bool :=
  bool_decide (is_Some (headers !! name)).

(** [headers[name] || ''] *)
Definition header_or_empty (headers : headers_t) (name : string) : string :=
  match headers !! name with
  | Some v => if ToBoolean (VString v) then v else ""
  | None => ""
  end.

(** [ips.every(net.isIP)]: [net.isIP] answers 0, 4 or 6, and 0 is falsy. *)
Definition every_isIP (ips : list string) : bool :=
  forallb (fun s => Number.truthy (Number.of_Z (net.isIP s))) ips.

(** The loop of [forwarded] over the entries still to be tried. Falling off
    the loop, as the bare [return], gives [undefined]: [None]. *)
Fixpoint forwarded_loop (ps : list Proxy.t) (headers : headers_t)
  : completion (option Forwarded_t) :=
  match ps with
  | [] => Return None
  | p :: rest =>
      if negb (has_header headers (Proxy.ip p)) then forwarded_loop rest headers
      else
        let ports := String_split "," (header_or_empty headers (Proxy.port p)) in
        let ips := String_split "," (header_or_empty headers (Proxy.ip p)) in
        if (length ips =? 0)%nat || negb (every_isIP ips) then Return None
        else
          let* r := Forwarded (shift ips) (shift ports) VUndefined in
          Return (Some r)
  end.

(** [function forwarded(headers)] *)
Definition forwarded (headers : headers_t) : completion (option Forwarded_t) :=
  forwarded_loop proxies headers.

(** A statement [if (...) return ...;]: it either returns from the function
    ([Some]) or lets control fall through to the statements after it
    ([None]). *)
Definition or_else (stmt : completion (option Forwarded_t))
  (next : completion Forwarded_t) : completion Forwarded_t :=
  let* r := stmt in
  match r with
  | Some x => Return x
  | None => next
  end.

Notation "stmt ';;;' next" := (or_else stmt next)
  (at level 100, next at level 200, right associativity,
   format "'[v' stmt  ';;;' '/' next ']'").

(** [return new Forwarded(ip, port)] *)
Definition return_new_Forwarded (ip port : value)
  : completion (option Forwarded_t) :=
  let* r := Forwarded ip port VUndefined in
  Return (Some r).

Definition is_object_type (v : value) : bool := String.eqb "object" (typeof v).

(** ['object' === typeof v && k in v] *)
Definition object_with (k : string) (v : value) : completion bool :=
  if is_object_type v then HasProperty k v else Return false.

(** [module.exports = function parse(obj, headers, whitelist)]. The call
    [forwarded(headers, whitelist)] passes an argument that [forwarded] has
    no parameter for. *)
Definition parse (obj : value) (headers : headers_t) (whitelist : value)
  : completion Forwarded_t :=
  let* proxied := forwarded headers in
  let* connection := Get obj "connection" in
  let* socket := (if ToBoolean connection then Get connection "socket"
                  else Get obj "socket") in
  (Return proxied) ;;;
  (if is_object_type obj then
     let* has_remote := HasProperty "remoteAddress" obj in
     if has_remote then
       let* a := Get obj "remoteAddress" in
       let* p := Get obj "remotePort" in
       return_new_Forwarded a p
     else
       let* has_address := HasProperty "address" obj in
       let* has_both := (if has_address then HasProperty "port" obj
                         else Return false) in
       if has_both then
         let* a := Get obj "address" in
         let* p := Get obj "port" in
         return_new_Forwarded a p
       else Return None
   else Return None) ;;;
  (let* in_connection := object_with "remoteAddress" connection in
   if in_connection then
     let* a := Get connection "remoteAddress" in
     let* p := Get connection "remotePort" in
     return_new_Forwarded a p
   else Return None) ;;;
  (let* in_socket := object_with "remoteAddress" socket in
   if in_socket then
     let* a := Get socket "remoteAddress" in
     let* p := Get socket "remoteAddress" in
     return_new_Forwarded a p
   else Return None) ;;;
  Forwarded VUndefined VUndefined VUndefined.

(** * Properties *)

(** ** Vocabulary of the specification *)

(** The highest-priority entry of the table whose IP header name is a key of
    the received headers. *)
Definition matched_entry (headers : headers_t) : option Proxy.t :=
  List.find (fun p => has_header headers (Proxy.ip p)) proxies.

(** The hops of a header value, and the first of them. *)
Definition hops (v : string) : list string := String_split "," v.
Definition first_hop (v : string) : string := hd "" (hops v).

(** The IP header value of an entry passes validation when every hop is an
    IP address. *)
Definition valid_ips (headers : headers_t) (p : Proxy.t) : bool :=
  every_isIP (hops (header_or_empty headers (Proxy.ip p))).

(** [+s || 0] *)
Definition port_number (s : string) : Number.t :=
  let n := StringToNumber.StringToNumber s in
  if Number.truthy n then n else Number.zero.

(** The Result of total failure. *)
Definition default_Forwarded : Forwarded_t :=
  {| ip := VString "127.0.0.1"; secure := false; port := Number.zero |}.

(** A completion that is not abrupt. *)
Definition returns {A} (c : completion A) : Prop := exists a, c = Return a.

(** [r] is what some call [new Forwarded(a, p)] returned. *)
Definition built (r : Forwarded_t) : Prop :=
  exists a p, Forwarded a p VUndefined = Return r.

(** ** Sample inputs *)

Definition empty_object : value := VObject ∅.

Definition spoofed_headers : headers_t :=
  {[ "x-forwarded-for" := "not-an-ip"; "z-forwarded-for" := "1.2.3.4" ]}.

Definition two_hops_headers : headers_t :=
  {[ "x-forwarded-for" := "203.0.113.5, 10.0.0.1";
     "x-forwarded-port" := "443,8080" ]}.

Definition two_hops_no_space_headers : headers_t :=
  {[ "x-forwarded-for" := "203.0.113.5,10.0.0.1";
     "x-forwarded-port" := "443,8080" ]}.

Definition negative_port_headers : headers_t :=
  {[ "x-forwarded-for" := "203.0.113.5"; "x-forwarded-port" := "-5" ]}.

(** The first entry of [proxies]. *)
Definition x_forwarded : Proxy.t :=
  {| Proxy.ip := "x-forwarded-for";
     Proxy.port := "x-forwarded-port";
     Proxy.proto := Some "x-forwarded-proto" |}.

(** The second entry. *)
Definition z_forwarded : Proxy.t :=
  {| Proxy.ip := "z-forwarded-for";
     Proxy.port := "z-forwarded-port";
     Proxy.proto := Some "z-forwarded-proto" |}.

Definition null_connection : value := VObject {[ "connection" := VNull ]}.
Definition null_socket : value := VObject {[ "socket" := VNull ]}.

Definition socket_only : value :=
  VObject {[ "socket" := VObject {[ "remoteAddress" := VString "10.0.0.7" ]} ]}.

Definition single_hop_headers : headers_t :=
  {[ "x-forwarded-for" := "203.0.113.5"; "x-forwarded-port" := "443" ]}.

Definition some_socket : gmap string value :=
  {[ "remoteAddress" := VString "10.0.0.1";
     "remotePort" := VNumber (Number.of_Z 5000) ]}.

Definition no_port_headers : headers_t :=
  {[ "z-forwarded-for" := "198.51.100.7,10.0.0.1" ]}.

(** ** Further vocabulary *)

(** The code units of a string. *)
Definition chars (s : string) : list ascii := list_ascii_of_string s.

(** Some character class of the pattern admits [c]. *)
Fixpoint mentions (c : ascii) (r : RegExp.t) : bool :=
  match r with
  | RegExp.Void | RegExp.Eps => false
  | RegExp.Class p => p c
  | RegExp.Seq r1 r2 | RegExp.Alt r1 r2 => mentions c r1 || mentions c r2
  | RegExp.Star r1 => mentions c r1
  end.

(** The characters that occur in the two patterns of the IP validator:
    digits, letters and [.], [:], [%], [-]. *)
Definition ip_char (c : ascii) : bool :=
  is_digit c || in_range "a" "z" c || in_range "A" "Z" c ||
  existsb (Ascii.eqb c) ["."; ":"; "%"; "-"]%char.

(** A value that is neither an object nor [null] or [undefined]. *)
Definition is_primitive (v : value) : bool :=
  match v with
  | VBoolean _ | VNumber _ | VString _ => true
  | _ => false
  end.

(** The names that the header scan reads. *)
Definition scanned_names : list string :=
  flat_map (fun p => [Proxy.ip p; Proxy.port p]) proxies.

(** The last entry of [proxies]. *)
Definition x_real : Proxy.t :=
  {| Proxy.ip := "x-real-ip"; Proxy.port := "x-real-port"; Proxy.proto := None |}.

Definition wrapped_connection : gmap string value :=
  {[ "connection" :=
       VObject {[ "remoteAddress" := VString "10.0.0.9";
                  "remotePort" := VNumber (Number.of_Z 8080) ]} ]}.

Definition alternate_transport : gmap string value :=
  {[ "address" := VString "10.1.1.1"; "port" := VNumber (Number.of_Z 9000) ]}.

Definition real_ip_headers : headers_t :=
  {[ "x-real-ip" := "198.51.100.7"; "x-real-port" := "8443";
     "user-agent" := "curl" ]}.

(** ** The arguments of the constructor

    What the resolution path of the specification hands to the constructor,
    written as a function of the inputs, to be compared with [parse]. *)

(** The own property [k] of [v], when [v] is an object that has it. *)
Definition field (k : string) (v : value) : option value :=
  match v with
  | VObject props => props !! k
  | _ => None
  end.

(** [v] is an object that exposes [k]. *)
Definition exposes (k : string) (v : value) : bool :=
  bool_decide (is_Some (field k v)).

(** The value of [v.k], [undefined] when [v] does not expose [k]. *)
Definition read (k : string) (v : value) : value :=
  default VUndefined (field k v).

(** The socket reference: the connection's [socket] if the object has a
    (truthy) [connection], else the object's own [socket]. *)
Definition derived_socket (obj : value) : value :=
  if ToBoolean (read "connection" obj) then read "socket" (read "connection" obj)
  else read "socket" obj.

(** The decision chain of the transport fallback: the address and the port
    value of the first applicable shape. *)
Definition transport_supplied (obj : value) : value * value :=
  if exposes "remoteAddress" obj then
    (read "remoteAddress" obj, read "remotePort" obj)
  else if exposes "address" obj && exposes "port" obj then
    (read "address" obj, read "port" obj)
  else if exposes "remoteAddress" (read "connection" obj) then
    (read "remoteAddress" (read "connection" obj),
     read "remotePort" (read "connection" obj))
  else if exposes "remoteAddress" (derived_socket obj) then
    (read "remoteAddress" (derived_socket obj),
     read "remoteAddress" (derived_socket obj))
  else (VUndefined, VUndefined).

(** The supplied address and the supplied port value: the first hops of the
    matched entry's two headers when its IP header value is valid, else
    what the transport fallback finds. *)
Definition supplied (obj : value) (headers : headers_t) : value * value :=
  match matched_entry headers with
  | Some p =>
      if valid_ips headers p then
        (VString (first_hop (header_or_empty headers (Proxy.ip p))),
         VString (first_hop (header_or_empty headers (Proxy.port p))))
      else transport_supplied obj
  | None => transport_supplied obj
  end.

Definition supplied_address (obj : value) (headers : headers_t) : value :=
  fst (supplied obj headers).

Definition supplied_port (obj : value) (headers : headers_t) : value :=
  snd (supplied obj headers).

Definition fractional_port_headers : headers_t :=
  {[ "x-forwarded-for" := "203.0.113.5"; "x-forwarded-port" := "80.5" ]}.

(** ** The header scan *)

Lemma String_split_nonempty sep s : String_split sep s <> [].
Proof.
  destruct s as [|c s]; simpl; [discriminate|].
  destruct (Ascii.eqb c sep); [discriminate|].
  destruct (String_split sep s); discriminate.
Qed.

Lemma hops_first v : exists rest, hops v = first_hop v :: rest.
Proof.
  unfold first_hop, hops.
  destruct (String_split "," v) as [|x l] eqn:E.
  - now apply String_split_nonempty in E.
  - now exists l.
Qed.

Lemma forwarded_loop_unmatched ps headers :
  List.find (fun p => has_header headers (Proxy.ip p)) ps = None ->
  forwarded_loop ps headers = Return None.
Proof.
  induction ps as [|q ps IH]; simpl; [reflexivity|].
  destruct (has_header headers (Proxy.ip q)); [discriminate|].
  exact IH.
Qed.

Lemma forwarded_loop_matched ps headers p :
  List.find (fun p => has_header headers (Proxy.ip p)) ps = Some p ->
  forwarded_loop ps headers =
    let ports := hops (header_or_empty headers (Proxy.port p)) in
    let ips := hops (header_or_empty headers (Proxy.ip p)) in
    if (length ips =? 0)%nat || negb (every_isIP ips) then Return None
    else let* r := Forwarded (shift ips) (shift ports) VUndefined in
         Return (Some r).
Proof.
  induction ps as [|q ps IH]; simpl; [discriminate|].
  destruct (has_header headers (Proxy.ip q)); simpl.
  - intros [= ->]. reflexivity.
  - exact IH.
Qed.

Lemma forwarded_invalid headers p :
  matched_entry headers = Some p ->
  valid_ips headers p = false ->
  forwarded headers = Return None.
Proof.
  intros Hm Hv. unfold forwarded.
  rewrite (forwarded_loop_matched _ _ _ Hm). cbv zeta.
  unfold valid_ips in Hv. rewrite Hv, orb_true_r. reflexivity.
Qed.

Lemma forwarded_empty : forwarded ∅ = Return None.
Proof. reflexivity. Qed.

(** With no header-based Result, [parse] is what it is on no headers at
    all: the transport fallback. *)
Lemma parse_without_proxied obj headers whitelist :
  forwarded headers = Return None ->
  parse obj headers whitelist = parse obj ∅ whitelist.
Proof.
  intros H. unfold parse. rewrite H, forwarded_empty. reflexivity.
Qed.

(** ** C1 *)



(** The valid [z-forwarded-for] of the sample is not used. *)
Example spoofed_headers_default :
  net.isIP "1.2.3.4" = 4%Z /\
  parse empty_object spoofed_headers VUndefined = Return default_Forwarded.
Proof. split; vm_compute; reflexivity. Qed.

(** ** C2 *)

(** C2. On [x-forwarded-for: "203.0.113.5, 10.0.0.1"] the second hop keeps
    the space that follows the comma, [net.isIP] rejects it, and [parse]
    gives the transport fallback (the default Result on an empty object),
    not the first hop with port 443. *)
Theorem two_hops_with_space_rejected :
  hops "203.0.113.5, 10.0.0.1" = ["203.0.113.5"; " 10.0.0.1"] /\
  net.isIP " 10.0.0.1" = 0%Z /\
  forwarded two_hops_headers = Return None /\
  parse empty_object two_hops_headers VUndefined = Return default_Forwarded.
Proof. split; [|split; [|split]]; vm_compute; reflexivity. Qed.

(** Without the space the first hop of each list is used. *)
Example two_hops_no_space :
  parse empty_object two_hops_no_space_headers VUndefined =
  Return {| ip := VString "203.0.113.5"; secure := false;
            port := Number.of_Z 443 |}.
Proof. vm_compute; reflexivity. Qed.

(** ** C4 *)

(** C4. [typeof null] is ["object"], so a [connection] (or [socket]) property
    holding [null] passes the type test and the [in] test that follows
    throws a [TypeError]. *)
Theorem parse_throws_on_null_connection :
  is_object_type VNull = true /\
  parse null_connection ∅ VUndefined = Throw TypeError /\
  parse null_socket ∅ VUndefined = Throw TypeError.
Proof. split; [|split]; vm_compute; reflexivity. Qed.

(** ** C9 *)

(** C9. The whitelist argument has no influence on the outcome. *)
Theorem whitelist_is_ignored (obj : value) (headers : headers_t)
  (whitelist1 whitelist2 : value) :
  parse obj headers whitelist1 = parse obj headers whitelist2.
Proof. reflexivity. Qed.

(** ** A header-based Result *)

Lemma isIP_cases s : net.isIP s = 0%Z \/ net.isIP s = 4%Z \/ net.isIP s = 6%Z.
Proof.
  unfold net.isIP.
  destruct (net.isIPv4 s); [auto|]. destruct (net.isIPv6 s); auto.
Qed.

Lemma isIP_truthy s :
  Number.truthy (Number.of_Z (net.isIP s)) = negb (net.isIP s =? 0)%Z.
Proof.
  destruct (isIP_cases s) as [-> | [-> | ->]]; reflexivity.
Qed.

Lemma isIP_empty : net.isIP "" = 0%Z.
Proof. reflexivity. Qed.

Lemma valid_hop_nonempty s :
  Number.truthy (Number.of_Z (net.isIP s)) = true -> ToBoolean (VString s) = true.
Proof.
  destruct s; [|reflexivity].
  rewrite isIP_truthy, isIP_empty. discriminate.
Qed.

Lemma header_or_empty_lookup (headers : headers_t) name v :
  headers !! name = Some v -> header_or_empty headers name = v.
Proof.
  unfold header_or_empty. intros ->. simpl.
  destruct v; reflexivity.
Qed.

Lemma Forwarded_strings a p :
  ToBoolean (VString a) = true ->
  Forwarded (VString a) (VString p) VUndefined =
  Return {| ip := VString a; secure := false; port := port_number p |}.
Proof.
  intros Ha. unfold Forwarded. rewrite Ha. reflexivity.
Qed.

(** The Result of the header scan on a matched entry that passes
    validation: the first hop of each of the two lists. *)
Lemma forwarded_valid headers p :
  matched_entry headers = Some p ->
  valid_ips headers p = true ->
  forwarded headers =
  Return (Some {| ip := VString (first_hop (header_or_empty headers (Proxy.ip p)));
                  secure := false;
                  port := port_number
                            (first_hop (header_or_empty headers (Proxy.port p))) |}).
Proof.
  intros Hm Hv. unfold forwarded.
  rewrite (forwarded_loop_matched _ _ _ Hm). cbv zeta.
  unfold valid_ips in Hv. rewrite Hv.
  destruct (hops_first (header_or_empty headers (Proxy.ip p))) as [ips Hi].
  destruct (hops_first (header_or_empty headers (Proxy.port p))) as [ports Hp].
  rewrite Hi in Hv |- *. rewrite Hp.
  cbn [length Nat.eqb orb negb shift]. unfold every_isIP in Hv.
  cbn [forallb] in Hv. apply andb_true_iff in Hv as [Hv _].
  rewrite (Forwarded_strings _ _ (valid_hop_nonempty _ Hv)). reflexivity.
Qed.

(** On an object, reading [connection] and deriving [socket] cannot
    throw. *)
Lemma derive_socket_returns (props : gmap string value) :
  exists connection socket,
    Get (VObject props) "connection" = Return connection /\
    (if ToBoolean connection then Get connection "socket"
     else Get (VObject props) "socket") = Return socket.
Proof.
  exists (default VUndefined (props !! "connection")). cbn [Get].
  destruct (default VUndefined (props !! "connection")) as [| |b|n|s|cp];
    cbn [ToBoolean Get]; eauto.
  - destruct b; eauto.
  - destruct (Number.truthy n); eauto.
  - destruct (negb (String.eqb s "")); eauto.
Qed.

(** A header-based Result is returned as it is, whatever the object holds. *)
Lemma parse_proxied (props : gmap string value) headers whitelist r :
  forwarded headers = Return (Some r) ->
  parse (VObject props) headers whitelist = Return r.
Proof.
  intros Hf. unfold parse. rewrite Hf.
  destruct (derive_socket_returns props) as (c & s & Hc & Hs).
  cbn [bind]. rewrite Hc. cbn [bind]. rewrite Hs. reflexivity.
Qed.

(** ** C3 *)

(** C3. With a valid single-hop [x-forwarded-for] value, [parse] returns that
    address, with the number of the first hop of [x-forwarded-port] (0 when
    the header is absent or not numeric); the properties of the connection
    object play no part. *)
Theorem single_hop_x_forwarded_for (props : gmap string value)
  (headers : headers_t) (whitelist : value) (v : string) :
  headers !! "x-forwarded-for" = Some v ->
  net.isIP v <> 0%Z ->
  hops v = [v] ->
  parse (VObject props) headers whitelist =
  Return {| ip := VString v; secure := false;
            port := port_number
                      (first_hop (header_or_empty headers "x-forwarded-port")) |}.
Proof.
  intros Hl Hv Hh.
  assert (Hm : matched_entry headers = Some x_forwarded).
  { unfold matched_entry, proxies. cbn [List.find Proxy.ip].
    unfold has_header. rewrite Hl.
    rewrite bool_decide_eq_true_2 by eauto. reflexivity. }
  assert (Hval : valid_ips headers x_forwarded = true).
  { unfold valid_ips, x_forwarded. cbn [Proxy.ip].
    rewrite (header_or_empty_lookup _ _ _ Hl), Hh.
    unfold every_isIP. cbn [forallb].
    rewrite isIP_truthy, andb_true_r.
    destruct (Z.eqb_spec (net.isIP v) 0); [contradiction|reflexivity]. }
  rewrite (parse_proxied _ _ _ _ (forwarded_valid _ _ Hm Hval)).
  unfold x_forwarded. cbn [Proxy.ip Proxy.port].
  rewrite (header_or_empty_lookup _ _ _ Hl).
  unfold first_hop at 1. rewrite Hh. reflexivity.
Qed.

Lemma single_hop_x_forwarded_for_witness :
  parse (VObject some_socket) single_hop_headers VUndefined =
  Return {| ip := VString "203.0.113.5"; secure := false;
            port := port_number
                      (first_hop (header_or_empty single_hop_headers
                                    "x-forwarded-port")) |}.
Proof.
  apply (single_hop_x_forwarded_for some_socket single_hop_headers VUndefined
           "203.0.113.5").
  - vm_compute; reflexivity.
  - vm_compute; discriminate.
  - vm_compute; reflexivity.
Defined.

Example single_hop_port :
  port_number (first_hop (header_or_empty single_hop_headers "x-forwarded-port"))
  = Number.of_Z 443.
Proof. vm_compute; reflexivity. Qed.

(** ** C10 *)

(** C10. When the matched entry's IP header value is valid and its port
    header is absent or empty, [parse] returns the first hop with port 0. *)
Theorem valid_ip_without_port (props : gmap string value)
  (headers : headers_t) (whitelist : value) (p : Proxy.t) :
  matched_entry headers = Some p ->
  valid_ips headers p = true ->
  headers !! Proxy.port p = None \/ headers !! Proxy.port p = Some "" ->
  parse (VObject props) headers whitelist =
  Return {| ip := VString (first_hop (header_or_empty headers (Proxy.ip p)));
            secure := false;
            port := Number.zero |}.
Proof.
  intros Hm Hv Hp.
  rewrite (parse_proxied _ _ _ _ (forwarded_valid _ _ Hm Hv)).
  assert (He : header_or_empty headers (Proxy.port p) = "").
  { unfold header_or_empty. destruct Hp as [-> | ->]; reflexivity. }
  rewrite He. reflexivity.
Qed.

Lemma valid_ip_without_port_witness :
  parse (VObject some_socket) no_port_headers VUndefined =
  Return {| ip := VString (first_hop (header_or_empty no_port_headers
                                         (Proxy.ip z_forwarded)));
            secure := false;
            port := Number.zero |}.
Proof.
  apply (valid_ip_without_port some_socket no_port_headers VUndefined z_forwarded).
  - vm_compute; reflexivity.
  - vm_compute; reflexivity.
  - left. vm_compute; reflexivity.
Defined.

Example no_port_first_hop :
  first_hop (header_or_empty no_port_headers (Proxy.ip z_forwarded))
  = "198.51.100.7".
Proof. vm_compute; reflexivity. Qed.

(** ** The transport fallback *)

Lemma HasProperty_absent k (props : gmap string value) :
  props !! k = None -> HasProperty k (VObject props) = Return false.
Proof. intros H. simpl. rewrite H. reflexivity. Qed.

(** The statement on [obj] itself lets control through when the object has
    no [remoteAddress] and not both of [address] and [port]. *)
Lemma obj_statement_falls_through (props : gmap string value) :
  props !! "remoteAddress" = None ->
  props !! "address" = None \/ props !! "port" = None ->
  (let* has_remote := HasProperty "remoteAddress" (VObject props) in
   if has_remote then
     let* a := Get (VObject props) "remoteAddress" in
     let* p := Get (VObject props) "remotePort" in
     return_new_Forwarded a p
   else
     let* has_address := HasProperty "address" (VObject props) in
     let* has_both := (if has_address then HasProperty "port" (VObject props)
                       else Return false) in
     if has_both then
       let* a := Get (VObject props) "address" in
       let* p := Get (VObject props) "port" in
       return_new_Forwarded a p
     else Return None) = Return None.
Proof.
  intros Hr Hap. rewrite (HasProperty_absent _ _ Hr). cbn [bind].
  destruct Hap as [Ha | Hp].
  - rewrite (HasProperty_absent _ _ Ha). reflexivity.
  - rewrite (HasProperty_absent _ _ Hp).
    destruct (HasProperty "address" (VObject props)) as [[|]|] eqn:E;
      try reflexivity.
    discriminate E.
Qed.

(** ** C5 *)

(** C5. When the header scan gives nothing, the object has no
    [remoteAddress] and no [address]/[port] pair, the connection test
    answers false and the derived socket exposes [remoteAddress], the Result
    is built from that one property as both the address and the port
    argument; for a string address the port is its number, or 0. *)
Theorem socket_fallback_same_field (props : gmap string value)
  (headers : headers_t) (whitelist connection socket a : value) :
  forwarded headers = Return None ->
  props !! "remoteAddress" = None ->
  props !! "address" = None \/ props !! "port" = None ->
  Get (VObject props) "connection" = Return connection ->
  (if ToBoolean connection then Get connection "socket"
   else Get (VObject props) "socket") = Return socket ->
  object_with "remoteAddress" connection = Return false ->
  object_with "remoteAddress" socket = Return true ->
  Get socket "remoteAddress" = Return a ->
  parse (VObject props) headers whitelist = Forwarded a a VUndefined /\
  forall s, a = VString s ->
    parse (VObject props) headers whitelist =
    Return {| ip := if ToBoolean a then a else VString "127.0.0.1";
              secure := false;
              port := port_number s |}.
Proof.
  intros Hf Hr Hap Hc Hs Hnc Hsk Ha.
  assert (Hp : parse (VObject props) headers whitelist = Forwarded a a VUndefined).
  { unfold parse. rewrite Hf. cbn [bind]. rewrite Hc. cbn [bind].
    rewrite Hs. cbn [bind]. unfold or_else at 1. cbn [bind].
    change (is_object_type (VObject props)) with true. cbv iota.
    rewrite (obj_statement_falls_through _ Hr Hap).
    unfold or_else at 1. cbn [bind].
    rewrite Hnc. unfold or_else at 1. cbn [bind].
    rewrite Hsk. cbn [bind]. rewrite Ha. cbn [bind].
    unfold or_else, return_new_Forwarded.
    destruct (Forwarded a a VUndefined); reflexivity. }
  split; [exact Hp|].
  intros s ->. rewrite Hp. reflexivity.
Qed.

Lemma socket_fallback_same_field_witness :
  parse socket_only ∅ VUndefined =
    Forwarded (VString "10.0.0.7") (VString "10.0.0.7") VUndefined /\
  forall s, VString "10.0.0.7" = VString s ->
    parse socket_only ∅ VUndefined =
    Return {| ip := if ToBoolean (VString "10.0.0.7") then VString "10.0.0.7"
                    else VString "127.0.0.1";
              secure := false;
              port := port_number s |}.
Proof.
  apply (socket_fallback_same_field
           {[ "socket" := VObject {[ "remoteAddress" := VString "10.0.0.7" ]} ]}
           ∅ VUndefined VUndefined
           (VObject {[ "remoteAddress" := VString "10.0.0.7" ]})
           (VString "10.0.0.7")).
  - reflexivity.
  - vm_compute; reflexivity.
  - left. vm_compute; reflexivity.
  - vm_compute; reflexivity.
  - vm_compute; reflexivity.
  - vm_compute; reflexivity.
  - vm_compute; reflexivity.
  - vm_compute; reflexivity.
Defined.

(** An address is not a number: the port of the sample is 0. *)
Example socket_only_port :
  parse socket_only ∅ VUndefined =
  Return {| ip := VString "10.0.0.7"; secure := false; port := Number.zero |}.
Proof. vm_compute; reflexivity. Qed.

(** ** C8 *)

(** C8. The object whose [connection] is [null] exposes no [remoteAddress]
    and no [address]/[port] pair, and neither its connection nor its derived
    socket exposes a [remoteAddress]; yet with no headers [parse] does not
    return the default Result on it, it throws. *)
Theorem null_connection_is_not_default :
  exposes "remoteAddress" null_connection = false /\
  exposes "address" null_connection && exposes "port" null_connection = false /\
  exposes "remoteAddress" (read "connection" null_connection) = false /\
  exposes "remoteAddress" (derived_socket null_connection) = false /\
  parse null_connection ∅ VUndefined = Throw TypeError /\
  parse null_connection ∅ VUndefined <> Return default_Forwarded.
Proof.
  split; [|split; [|split; [|split; [|split]]]];
    try (vm_compute; reflexivity).
  vm_compute. discriminate.
Qed.

(** X20. With no headers, on an object with no [remoteAddress] and no
    [address]/[port] pair, whose connection and derived socket both make the
    [remoteAddress] test answer false (each is a non-null object without
    [remoteAddress], or not an object), [parse] returns the default
    Result. *)
Theorem unrecognized_object_gives_default (props : gmap string value)
  (whitelist connection socket : value) :
  props !! "remoteAddress" = None ->
  props !! "address" = None \/ props !! "port" = None ->
  Get (VObject props) "connection" = Return connection ->
  (if ToBoolean connection then Get connection "socket"
   else Get (VObject props) "socket") = Return socket ->
  object_with "remoteAddress" connection = Return false ->
  object_with "remoteAddress" socket = Return false ->
  parse (VObject props) ∅ whitelist = Return default_Forwarded.
Proof.
  intros Hr Hap Hc Hs Hnc Hns.
  unfold parse. rewrite forwarded_empty. cbn [bind]. rewrite Hc. cbn [bind].
  rewrite Hs. cbn [bind]. unfold or_else at 1. cbn [bind].
  change (is_object_type (VObject props)) with true. cbv iota.
  rewrite (obj_statement_falls_through _ Hr Hap).
  unfold or_else at 1. cbn [bind].
  rewrite Hnc. unfold or_else at 1. cbn [bind].
  rewrite Hns. reflexivity.
Qed.

Lemma unrecognized_object_gives_default_witness :
  parse (VObject ∅) ∅ VUndefined = Return default_Forwarded.
Proof.
  apply (unrecognized_object_gives_default ∅ VUndefined VUndefined VUndefined).
  - reflexivity.
  - left. reflexivity.
  - reflexivity.
  - reflexivity.
  - reflexivity.
  - reflexivity.
Defined.

(** An object with an empty [connection] and unrelated properties is as
    unrecognized as the empty one. *)
Example unrecognized_shapes :
  parse (VObject {[ "connection" := VObject ∅; "port" := VNumber (Number.of_Z 80) ]})
    ∅ VUndefined = Return default_Forwarded.
Proof. vm_compute; reflexivity. Qed.

(** ** Every Result comes from the constructor *)

Lemma bind_Return {A B} (c : completion A) (k : A -> completion B) b :
  bind c k = Return b -> exists a, c = Return a /\ k a = Return b.
Proof. destruct c as [a|e]; simpl; [eauto|discriminate]. Qed.

Lemma return_new_Forwarded_built a p r :
  return_new_Forwarded a p = Return (Some r) -> built r.
Proof.
  unfold return_new_Forwarded. intros H.
  apply bind_Return in H as (r' & Hr & [= ->]). now exists a, p.
Qed.

Lemma forwarded_loop_built ps headers r :
  forwarded_loop ps headers = Return (Some r) -> built r.
Proof.
  induction ps as [|q ps IH]; simpl; [discriminate|].
  destruct (negb (has_header headers (Proxy.ip q))); [exact IH|].
  destruct (_ || _); [discriminate|].
  intros H. apply bind_Return in H as (r' & Hr & [= ->]). eexists _, _. exact Hr.
Qed.

(** A guarded [return new Forwarded(a, p)] whose operands are read from
    properties. *)
Lemma guarded_return_built (guard : completion bool) (ca cp : completion value) r :
  (let* b := guard in
   if b then let* a := ca in let* p := cp in return_new_Forwarded a p
   else Return None) = Return (Some r) ->
  built r.
Proof.
  intros H. apply bind_Return in H as ([|] & _ & H); [|discriminate].
  apply bind_Return in H as (a & _ & H).
  apply bind_Return in H as (p & _ & H).
  exact (return_new_Forwarded_built _ _ _ H).
Qed.

Lemma or_else_built stmt next :
  (forall r, stmt = Return (Some r) -> built r) ->
  (forall r, next = Return r -> built r) ->
  forall r, or_else stmt next = Return r -> built r.
Proof.
  intros Hs Hn r H. unfold or_else in H.
  apply bind_Return in H as ([x|] & Hx & H).
  - injection H as ->. exact (Hs _ Hx).
  - exact (Hn _ H).
Qed.

Lemma parse_built obj headers whitelist r :
  parse obj headers whitelist = Return r -> built r.
Proof.
  unfold parse. intros H.
  apply bind_Return in H as (proxied & Hf & H).
  apply bind_Return in H as (connection & _ & H).
  apply bind_Return in H as (socket & _ & H).
  revert r H. apply or_else_built.
  { intros r [= ->]. exact (forwarded_loop_built _ _ _ Hf). }
  apply or_else_built.
  { intros r H. destruct (is_object_type obj); [|discriminate].
    apply bind_Return in H as ([|] & _ & H).
    - apply bind_Return in H as (a & _ & H).
      apply bind_Return in H as (p & _ & H).
      exact (return_new_Forwarded_built _ _ _ H).
    - apply bind_Return in H as (has_address & _ & H).
      apply bind_Return in H as ([|] & _ & H); [|discriminate].
      apply bind_Return in H as (a & _ & H).
      apply bind_Return in H as (p & _ & H).
      exact (return_new_Forwarded_built _ _ _ H). }
  apply or_else_built; [apply guarded_return_built|].
  apply or_else_built; [apply guarded_return_built|].
  intros r H. now exists VUndefined, VUndefined.
Qed.

(** ** When [parse] returns

    On an object, [parse] returns as soon as neither the connection nor the
    derived socket is [null] and unary [+] accepts the property values. *)

Lemma Forwarded_returns a p s : returns (ToNumber p) -> returns (Forwarded a p s).
Proof. intros [n Hn]. unfold Forwarded. rewrite Hn. eexists; reflexivity. Qed.

Lemma return_new_Forwarded_returns a p :
  returns (ToNumber p) -> returns (return_new_Forwarded a p).
Proof.
  intros H. destruct (Forwarded_returns a p VUndefined H) as [r Hr].
  unfold return_new_Forwarded. rewrite Hr. eexists; reflexivity.
Qed.

Lemma shift_ToNumber l : returns (ToNumber (shift l)).
Proof. destruct l; eexists; reflexivity. Qed.

Lemma forwarded_loop_returns ps headers : returns (forwarded_loop ps headers).
Proof.
  induction ps as [|q ps IH]; simpl; [eexists; reflexivity|].
  destruct (negb _); [exact IH|].
  destruct (_ || _); [eexists; reflexivity|].
  apply return_new_Forwarded_returns, shift_ToNumber.
Qed.

Lemma object_with_returns k v : v <> VNull -> returns (object_with k v).
Proof.
  intros Hv. destruct v; try (eexists; reflexivity). contradiction.
Qed.

Lemma or_else_returns stmt next :
  returns stmt -> returns next -> returns (or_else stmt next).
Proof.
  intros [[x|] ->] Hn; unfold or_else; simpl; [eexists; reflexivity | exact Hn].
Qed.

Lemma guarded_return_returns (guard : completion bool) (o : value) k1 k2 :
  returns guard ->
  (guard = Return true -> exists a p, Get o k1 = Return a /\ Get o k2 = Return p /\ returns (ToNumber p)) ->
  returns (let* b := guard in
           if b then let* a := Get o k1 in let* p := Get o k2 in return_new_Forwarded a p
           else Return None).
Proof.
  intros [[|] ->] H; simpl; [|eexists; reflexivity].
  destruct (H eq_refl) as (a & p & -> & -> & Hp). simpl.
  now apply return_new_Forwarded_returns.
Qed.

(** X19. On an object, [parse] returns a Result (it does not throw) whenever
    neither the connection nor the derived socket is [null] and unary [+]
    accepts every property value of the object, the connection and the
    socket. *)
Lemma parse_returns (props : gmap string value) headers whitelist connection socket :
  Get (VObject props) "connection" = Return connection ->
  (if ToBoolean connection then Get connection "socket"
   else Get (VObject props) "socket") = Return socket ->
  connection <> VNull ->
  socket <> VNull ->
  (forall o k v, o ∈ [VObject props; connection; socket] ->
     Get o k = Return v -> returns (ToNumber v)) ->
  returns (parse (VObject props) headers whitelist).
Proof.
  intros Hc Hs Hnc Hns Hnum. unfold parse.
  destruct (forwarded_loop_returns proxies headers) as [proxied Hf].
  unfold forwarded. rewrite Hf. cbn [bind]. rewrite Hc. cbn [bind]. rewrite Hs. cbn [bind].
  apply or_else_returns; [eexists; reflexivity|].
  assert (Hget : forall o k, o ∈ [VObject props; connection; socket] ->
            (exists props', o = VObject props') ->
            forall k', exists a p, Get o k' = Return a /\ Get o k = Return p /\ returns (ToNumber p)).
  { intros o k Ho [props' ->] k'. eexists _, _. split; [reflexivity|]. split; [reflexivity|].
    apply (Hnum (VObject props') k); [exact Ho|reflexivity]. }
  apply or_else_returns.
  { change (is_object_type (VObject props)) with true. cbv iota.
    cbn [HasProperty bind].
    destruct (bool_decide (is_Some (props !! "remoteAddress"))).
    - destruct (Hget (VObject props) "remotePort") with (k' := "remoteAddress") as (a & p & -> & -> & Hp);
        [set_solver|eauto|]. now apply return_new_Forwarded_returns.
    - destruct (bool_decide (is_Some (props !! "address"))); cbn [bind];
        [|eexists; reflexivity].
      destruct (bool_decide (is_Some (props !! "port"))); [|eexists; reflexivity].
      destruct (Hget (VObject props) "port") with (k' := "address") as (a & p & -> & -> & Hp);
        [set_solver|eauto|]. now apply return_new_Forwarded_returns. }
  apply or_else_returns.
  { apply guarded_return_returns; [now apply object_with_returns|].
    intros Hg. apply Hget; [set_solver|].
    destruct connection; try discriminate Hg; eauto. }
  apply or_else_returns.
  { apply guarded_return_returns; [now apply object_with_returns|].
    intros Hg. apply Hget; [set_solver|].
    destruct socket; try discriminate Hg; eauto. }
  apply Forwarded_returns. eexists; reflexivity.
Qed.

(** ** The Result comes from the supplied arguments *)

Lemma forwarded_valid_arguments headers p :
  matched_entry headers = Some p ->
  valid_ips headers p = true ->
  forwarded headers =
  (let* r := Forwarded
               (VString (first_hop (header_or_empty headers (Proxy.ip p))))
               (VString (first_hop (header_or_empty headers (Proxy.port p))))
               VUndefined in
   Return (Some r)).
Proof.
  intros Hm Hv. rewrite (forwarded_valid _ _ Hm Hv).
  unfold valid_ips in Hv.
  destruct (hops_first (header_or_empty headers (Proxy.ip p))) as [rest Hr].
  rewrite Hr in Hv. unfold every_isIP in Hv. cbn [forallb] in Hv.
  apply andb_true_iff in Hv as [Hv _].
  rewrite (Forwarded_strings _ _ (valid_hop_nonempty _ Hv)). reflexivity.
Qed.

Lemma parse_proxied_inv obj headers whitelist r0 r :
  forwarded headers = Return (Some r0) ->
  parse obj headers whitelist = Return r -> r = r0.
Proof.
  intros Hf H. unfold parse in H. rewrite Hf in H. cbn [bind] in H.
  apply bind_Return in H as (c & _ & H).
  apply bind_Return in H as (s & _ & H).
  unfold or_else at 1 in H. cbn [bind] in H. now injection H as <-.
Qed.

Lemma or_else_constructor a p next :
  or_else (return_new_Forwarded a p) next = Forwarded a p VUndefined.
Proof.
  unfold or_else, return_new_Forwarded.
  destruct (Forwarded a p VUndefined); reflexivity.
Qed.

Lemma object_with_exposes k v b :
  object_with k v = Return b -> exposes k v = b.
Proof.
  destruct v; cbn; intros [= <-]; try reflexivity.
  all: apply bool_decide_eq_false_2; intros [? [=]].
Qed.

Lemma Get_read v k x : Get v k = Return x -> read k v = x.
Proof. destruct v; cbn; intros [= <-]; reflexivity. Qed.

Lemma guarded_constructor (guard : completion bool) o k1 k2 next r :
  or_else (let* b := guard in
           if b then let* a := Get o k1 in let* p := Get o k2 in
                     return_new_Forwarded a p
           else Return None) next = Return r ->
  (guard = Return true /\ Forwarded (read k1 o) (read k2 o) VUndefined = Return r) \/
  (guard = Return false /\ next = Return r).
Proof.
  destruct guard as [[|]|e]; cbn [bind]; [| |discriminate].
  - intros H. left. split; [reflexivity|].
    destruct (Get o k1) as [a|] eqn:Ea; [|discriminate H].
    destruct (Get o k2) as [p|] eqn:Ep; [|discriminate H].
    cbn [bind] in H. rewrite or_else_constructor in H.
    now rewrite (Get_read _ _ _ Ea), (Get_read _ _ _ Ep).
  - intros H. right. split; [reflexivity|exact H].
Qed.

Lemma transport_arguments obj headers whitelist r :
  forwarded headers = Return None ->
  parse obj headers whitelist = Return r ->
  Forwarded (fst (transport_supplied obj)) (snd (transport_supplied obj))
    VUndefined = Return r.
Proof.
  intros Hf H. unfold parse in H. rewrite Hf in H. cbn [bind] in H.
  apply bind_Return in H as (c & Hc & H).
  apply bind_Return in H as (s & Hs & H).
  pose proof Hc as HcG. apply Get_read in Hc.
  assert (Hs' : derived_socket obj = s).
  { unfold derived_socket. rewrite Hc.
    destruct (ToBoolean c); now apply Get_read. }
  unfold or_else at 1 in H. cbn [bind] in H.
  unfold transport_supplied. rewrite Hc, Hs'.
  assert (Hobj :
    (exposes "remoteAddress" obj = true /\
     Forwarded (read "remoteAddress" obj) (read "remotePort" obj) VUndefined
     = Return r) \/
    (exposes "remoteAddress" obj = false /\
     exposes "address" obj && exposes "port" obj = true /\
     Forwarded (read "address" obj) (read "port" obj) VUndefined = Return r) \/
    (exposes "remoteAddress" obj = false /\
     exposes "address" obj && exposes "port" obj = false /\
     ((let* in_connection := object_with "remoteAddress" c in
       if in_connection then
         let* a := Get c "remoteAddress" in
         let* p := Get c "remotePort" in
         return_new_Forwarded a p
       else Return None) ;;;
      (let* in_socket := object_with "remoteAddress" s in
       if in_socket then
         let* a := Get s "remoteAddress" in
         let* p := Get s "remoteAddress" in
         return_new_Forwarded a p
       else Return None) ;;;
      Forwarded VUndefined VUndefined VUndefined) = Return r)).
  { destruct obj as [| |b|n|str|props]; try discriminate HcG;
      try (right; right; split; [reflexivity|]; split; [reflexivity|exact H]).
    change (is_object_type (VObject props)) with true in H. cbv iota in H.
    unfold exposes, read. cbn [field HasProperty Get bind] in H |- *.
    destruct (bool_decide (is_Some (props !! "remoteAddress"))).
    - left. split; [reflexivity|]. now rewrite or_else_constructor in H.
    - right. destruct (bool_decide (is_Some (props !! "address")));
        cbn [bind andb] in H |- *.
      + destruct (bool_decide (is_Some (props !! "port"))).
        * left. split; [reflexivity|]. split; [reflexivity|].
          now rewrite or_else_constructor in H.
        * right. split; [reflexivity|]. split; [reflexivity|exact H].
      + right. split; [reflexivity|]. split; [reflexivity|exact H]. }
  destruct Hobj as [[-> Hr] | [(-> & -> & Hr) | (-> & -> & Hr)]];
    [exact Hr | exact Hr |].
  apply guarded_constructor in Hr as [[Hg Hr] | [Hg Hr]].
  { rewrite (object_with_exposes _ _ _ Hg). exact Hr. }
  rewrite (object_with_exposes _ _ _ Hg).
  apply guarded_constructor in Hr as [[Hg' Hr] | [Hg' Hr]].
  { rewrite (object_with_exposes _ _ _ Hg'). exact Hr. }
  rewrite (object_with_exposes _ _ _ Hg'). exact Hr.
Qed.

(** Every Result that [parse] returns is what the constructor makes of the
    supplied address and the supplied port value. *)
Lemma parse_arguments obj headers whitelist r :
  parse obj headers whitelist = Return r ->
  Forwarded (supplied_address obj headers) (supplied_port obj headers)
    VUndefined = Return r.
Proof.
  intros H. unfold supplied_address, supplied_port, supplied.
  destruct (matched_entry headers) as [p|] eqn:Hm.
  - destruct (valid_ips headers p) eqn:Hv.
    + pose proof (forwarded_valid_arguments _ _ Hm Hv) as Hf. cbn [fst snd].
      destruct (Forwarded _ _ VUndefined) as [r0|e] eqn:E in Hf.
      * cbn [bind] in Hf. rewrite (parse_proxied_inv _ _ _ _ _ Hf H). exact E.
      * cbn [bind] in Hf. unfold parse in H. rewrite Hf in H. discriminate H.
    + exact (transport_arguments _ _ _ _ (forwarded_invalid _ _ Hm Hv) H).
  - apply (transport_arguments _ _ _ _ (forwarded_loop_unmatched _ _ Hm) H).
Qed.

(** ** C7 *)

(** C7. Every Result that [parse] returns has [secure] equal to [false]. *)
Theorem secure_is_false (obj : value) (headers : headers_t)
  (whitelist : value) (r : Forwarded_t) :
  parse obj headers whitelist = Return r -> secure r = false.
Proof.
  intros H. apply parse_built in H as (a & p & H).
  unfold Forwarded in H. apply bind_Return in H as (n & _ & [= <-]).
  reflexivity.
Qed.

Lemma secure_is_false_witness :
  let r := {| ip := VString "203.0.113.5"; secure := false;
              port := Number.of_Z 443 |} in
  parse empty_object two_hops_no_space_headers VUndefined = Return r /\
  secure r = false.
Proof.
  intros r.
  assert (H : parse empty_object two_hops_no_space_headers VUndefined = Return r)
    by (vm_compute; reflexivity).
  split; [exact H|].
  exact (secure_is_false empty_object two_hops_no_space_headers VUndefined r H).
Defined.

(** ** C6 *)

(** A port header of [-5] gives the port -5, which is not a non-negative
    integer. *)
Lemma negative_port :
  parse empty_object negative_port_headers VUndefined =
    Return {| ip := VString "203.0.113.5"; secure := false;
              port := Number.of_Z (-5) |} /\
  Number.is_nonneg_integer (Number.of_Z (-5)) = false.
Proof. split; vm_compute; reflexivity. Qed.

(** A port header of [80.5] gives the port 161/2, which is not negative and
    not an integer; with [-5] above, neither "non-negative" nor "integer"
    holds of the port. *)
Lemma port_negative_or_fractional :
  (parse empty_object negative_port_headers VUndefined =
     Return {| ip := VString "203.0.113.5"; secure := false;
               port := Number.of_Z (-5) |} /\
   Number.is_negative (Number.of_Z (-5)) = true /\
   Number.is_nonneg_integer (Number.of_Z (-5)) = false) /\
  (parse empty_object fractional_port_headers VUndefined =
     Return {| ip := VString "203.0.113.5"; secure := false;
               port := SFdiv Number.prec Number.emax
                         (Number.of_Z 161) (Number.of_Z 2) |} /\
   Number.is_negative
     (SFdiv Number.prec Number.emax (Number.of_Z 161) (Number.of_Z 2)) = false /\
   Number.is_integer
     (SFdiv Number.prec Number.emax (Number.of_Z 161) (Number.of_Z 2)) = false /\
   Number.is_nonneg_integer
     (SFdiv Number.prec Number.emax (Number.of_Z 161) (Number.of_Z 2)) = false).
Proof.
  split; (split; [|split; [|try split]]); vm_compute; reflexivity.
Qed.

(** C6, amended. The port of every Result that [parse] returns is a Number
    and never [NaN]: it is the number that unary [+] makes of the supplied
    port value (the first hop of the matched entry's port header, or the
    port of the first applicable transport shape), with [+0] in its place
    when that number is [NaN] or a zero. *)
Theorem port_is_coerced_number (obj : value) (headers : headers_t)
  (whitelist : value) (r : Forwarded_t) :
  parse obj headers whitelist = Return r ->
  Number.is_nan (port r) = false /\
  exists n,
    ToNumber (supplied_port obj headers) = Return n /\
    port r = if Number.is_nan n || Number.is_zero n then Number.zero else n.
Proof.
  intros H. apply parse_arguments in H.
  unfold Forwarded in H. apply bind_Return in H as (n & Hn & [= <-]).
  cbn [port]. split.
  - unfold Number.truthy. destruct n; reflexivity.
  - exists n. split; [exact Hn|].
    unfold Number.truthy. destruct n; reflexivity.
Qed.

Lemma port_is_coerced_number_witness :
  let r := {| ip := VString "203.0.113.5"; secure := false;
              port := Number.of_Z (-5) |} in
  parse empty_object negative_port_headers VUndefined = Return r /\
  Number.is_nan (port r) = false /\
  exists n,
    ToNumber (supplied_port empty_object negative_port_headers) = Return n /\
    port r = if Number.is_nan n || Number.is_zero n then Number.zero else n.
Proof.
  intros r.
  assert (H : parse empty_object negative_port_headers VUndefined = Return r)
    by (vm_compute; reflexivity).
  split; [exact H|].
  exact (port_is_coerced_number empty_object negative_port_headers VUndefined r H).
Defined.

(** The supplied port value on the two paths. *)
Example supplied_port_samples :
  supplied_port empty_object negative_port_headers = VString "-5" /\
  supplied_port (VObject some_socket) ∅ = VNumber (Number.of_Z 5000) /\
  supplied_port socket_only ∅ = VString "10.0.0.7" /\
  supplied_port empty_object ∅ = VUndefined.
Proof. split; [|split; [|split]]; vm_compute; reflexivity. Qed.

(** Unknown and unparsable port values give 0. *)
Example unparsable_ports :
  port_number "" = Number.zero /\
  port_number "http" = Number.zero /\
  port_number "80" = Number.of_Z 80.
Proof. split; [|split]; vm_compute; reflexivity. Qed.

(** * Further properties *)

(** ** The statements of the transport fallback, one by one *)

Lemma or_else_return_new a p next :
  or_else (return_new_Forwarded a p) next = Forwarded a p VUndefined.
Proof.
  unfold or_else, return_new_Forwarded.
  destruct (Forwarded a p VUndefined); reflexivity.
Qed.

Lemma HasProperty_present k (props : gmap string value) v :
  props !! k = Some v -> HasProperty k (VObject props) = Return true.
Proof.
  intros H. simpl. rewrite H, bool_decide_eq_true_2 by eauto. reflexivity.
Qed.

(** X1. Without a header-based Result, an object that has a [remoteAddress]
    property is answered from its own [remoteAddress] and [remotePort],
    whatever its other properties hold, a [null] connection included. *)
Theorem own_remoteAddress_first (props : gmap string value)
  (headers : headers_t) (whitelist a : value) :
  forwarded headers = Return None ->
  props !! "remoteAddress" = Some a ->
  parse (VObject props) headers whitelist =
  Forwarded a (default VUndefined (props !! "remotePort")) VUndefined.
Proof.
  intros Hf Ha. unfold parse. rewrite Hf. cbn [bind].
  destruct (derive_socket_returns props) as (c & s & Hc & Hs).
  rewrite Hc. cbn [bind]. rewrite Hs. cbn [bind].
  unfold or_else at 1. cbn [bind].
  change (is_object_type (VObject props)) with true. cbv iota.
  rewrite (HasProperty_present _ _ _ Ha). cbn [bind Get]. rewrite Ha.
  cbn [default]. apply or_else_return_new.
Qed.

Lemma own_remoteAddress_first_witness :
  parse (VObject (<["connection" := VNull]> some_socket)) ∅ VUndefined =
  Forwarded (VString "10.0.0.1")
    (default VUndefined
       ((<["connection" := VNull]> some_socket : gmap string value)
          !! "remotePort")) VUndefined.
Proof.
  apply (own_remoteAddress_first (<["connection" := VNull]> some_socket) ∅
           VUndefined (VString "10.0.0.1")).
  - reflexivity.
  - vm_compute; reflexivity.
Defined.

(** X2. Without a header-based Result, an object without [remoteAddress]
    that has both [address] and [port] is answered from these two. *)
Theorem address_and_port_second (props : gmap string value)
  (headers : headers_t) (whitelist a p : value) :
  forwarded headers = Return None ->
  props !! "remoteAddress" = None ->
  props !! "address" = Some a ->
  props !! "port" = Some p ->
  parse (VObject props) headers whitelist = Forwarded a p VUndefined.
Proof.
  intros Hf Hr Ha Hp. unfold parse. rewrite Hf. cbn [bind].
  destruct (derive_socket_returns props) as (c & s & Hc & Hs).
  rewrite Hc. cbn [bind]. rewrite Hs. cbn [bind].
  unfold or_else at 1. cbn [bind].
  change (is_object_type (VObject props)) with true. cbv iota.
  rewrite (HasProperty_absent _ _ Hr). cbn [bind].
  rewrite (HasProperty_present _ _ _ Ha). cbn [bind].
  rewrite (HasProperty_present _ _ _ Hp). cbn [bind Get]. rewrite Ha, Hp.
  cbn [default]. apply or_else_return_new.
Qed.

Lemma address_and_port_second_witness :
  parse (VObject alternate_transport) ∅ VUndefined =
  Forwarded (VString "10.1.1.1") (VNumber (Number.of_Z 9000)) VUndefined.
Proof.
  apply (address_and_port_second alternate_transport ∅ VUndefined).
  - reflexivity.
  - vm_compute; reflexivity.
  - vm_compute; reflexivity.
  - vm_compute; reflexivity.
Defined.

(** X3. Without a header-based Result, on an object with no [remoteAddress]
    and no [address]/[port] pair whose [connection] is an object with a
    [remoteAddress], the answer comes from the connection's [remoteAddress]
    and [remotePort]; the socket is not looked at. *)
Theorem connection_third (props cprops : gmap string value)
  (headers : headers_t) (whitelist a : value) :
  forwarded headers = Return None ->
  props !! "remoteAddress" = None ->
  props !! "address" = None \/ props !! "port" = None ->
  props !! "connection" = Some (VObject cprops) ->
  cprops !! "remoteAddress" = Some a ->
  parse (VObject props) headers whitelist =
  Forwarded a (default VUndefined (cprops !! "remotePort")) VUndefined.
Proof.
  intros Hf Hr Hap Hc Ha.
  assert (Hc' : Get (VObject props) "connection" = Return (VObject cprops))
    by (cbn [Get]; rewrite Hc; reflexivity).
  unfold parse. rewrite Hf. cbn [bind]. rewrite Hc'. cbn [bind ToBoolean].
  change (Get (VObject cprops) "socket")
    with (Return (default VUndefined (cprops !! "socket"))).
  cbn [bind]. unfold or_else at 1. cbn [bind].
  change (is_object_type (VObject props)) with true. cbv iota.
  rewrite (obj_statement_falls_through _ Hr Hap).
  unfold or_else at 1. cbn [bind].
  change (object_with "remoteAddress" (VObject cprops))
    with (HasProperty "remoteAddress" (VObject cprops)).
  rewrite (HasProperty_present _ _ _ Ha). cbn [bind Get]. rewrite Ha.
  cbn [default]. apply or_else_return_new.
Qed.

Lemma connection_third_witness :
  parse (VObject wrapped_connection) ∅ VUndefined =
  Forwarded (VString "10.0.0.9")
    (default VUndefined
       (({[ "remoteAddress" := VString "10.0.0.9";
            "remotePort" := VNumber (Number.of_Z 8080) ]}
          : gmap string value) !! "remotePort")) VUndefined.
Proof.
  apply (connection_third wrapped_connection
           {[ "remoteAddress" := VString "10.0.0.9";
              "remotePort" := VNumber (Number.of_Z 8080) ]} ∅ VUndefined).
  - reflexivity.
  - vm_compute; reflexivity.
  - left. vm_compute; reflexivity.
  - vm_compute; reflexivity.
  - vm_compute; reflexivity.
Defined.

Example transport_samples :
  parse (VObject some_socket) ∅ VUndefined =
    Return {| ip := VString "10.0.0.1"; secure := false;
              port := Number.of_Z 5000 |} /\
  parse (VObject alternate_transport) ∅ VUndefined =
    Return {| ip := VString "10.1.1.1"; secure := false;
              port := Number.of_Z 9000 |} /\
  parse (VObject wrapped_connection) ∅ VUndefined =
    Return {| ip := VString "10.0.0.9"; secure := false;
              port := Number.of_Z 8080 |}.
Proof. split; [|split]; vm_compute; reflexivity. Qed.

(** ** What the header scan reads *)

Lemma has_header_agree (h1 h2 : headers_t) name :
  h1 !! name = h2 !! name -> has_header h1 name = has_header h2 name.
Proof. unfold has_header. intros ->. reflexivity. Qed.

Lemma header_or_empty_agree (h1 h2 : headers_t) name :
  h1 !! name = h2 !! name -> header_or_empty h1 name = header_or_empty h2 name.
Proof. unfold header_or_empty. intros ->. reflexivity. Qed.

Lemma forwarded_loop_agree ps (h1 h2 : headers_t) :
  (forall p, In p ps ->
     h1 !! Proxy.ip p = h2 !! Proxy.ip p /\
     h1 !! Proxy.port p = h2 !! Proxy.port p) ->
  forwarded_loop ps h1 = forwarded_loop ps h2.
Proof.
  induction ps as [|q ps IH]; intros H; [reflexivity|].
  destruct (H q (or_introl eq_refl)) as [Hi Hp].
  cbn [forwarded_loop].
  rewrite (has_header_agree _ _ _ Hi), (header_or_empty_agree _ _ _ Hi),
    (header_or_empty_agree _ _ _ Hp), IH; [reflexivity|].
  intros p Hin. apply H. now right.
Qed.

Lemma scanned_names_of p :
  In p proxies -> In (Proxy.ip p) scanned_names /\ In (Proxy.port p) scanned_names.
Proof.
  intros H. unfold scanned_names. split; apply in_flat_map; exists p;
    (split; [exact H|]); simpl; auto.
Qed.

Lemma matched_entry_in headers p :
  matched_entry headers = Some p ->
  In p proxies /\ is_Some (headers !! Proxy.ip p).
Proof.
  intros H. apply find_some in H as [Hin Hh]. split; [exact Hin|].
  unfold has_header in Hh. now apply bool_decide_eq_true in Hh.
Qed.

(** X4. Whichever entry is matched, when its IP header value is valid the
    Result is the first hop of that value with the number of the first hop
    of the entry's port header, on every object. *)
Theorem header_result_is_first_hops (props : gmap string value)
  (headers : headers_t) (whitelist : value) (p : Proxy.t) :
  matched_entry headers = Some p ->
  valid_ips headers p = true ->
  parse (VObject props) headers whitelist =
  Return {| ip := VString (first_hop (header_or_empty headers (Proxy.ip p)));
            secure := false;
            port := port_number
                      (first_hop (header_or_empty headers (Proxy.port p))) |}.
Proof.
  intros Hm Hv. apply parse_proxied. now apply forwarded_valid.
Qed.

Lemma header_result_is_first_hops_witness :
  parse (VObject some_socket) two_hops_no_space_headers VUndefined =
  Return {| ip := VString (first_hop (header_or_empty two_hops_no_space_headers
                                         (Proxy.ip x_forwarded)));
            secure := false;
            port := port_number
                      (first_hop (header_or_empty two_hops_no_space_headers
                                    (Proxy.port x_forwarded))) |}.
Proof.
  apply (header_result_is_first_hops some_socket two_hops_no_space_headers
           VUndefined x_forwarded); vm_compute; reflexivity.
Defined.

(** X5. [x-real-ip] has the lowest priority: it is used when the three
    other IP headers are absent, with [x-real-port] as its port. *)
Theorem x_real_ip_is_last (props : gmap string value)
  (headers : headers_t) (whitelist : value) (v : string) :
  headers !! "x-forwarded-for" = None ->
  headers !! "z-forwarded-for" = None ->
  headers !! "forwarded" = None ->
  headers !! "x-real-ip" = Some v ->
  net.isIP v <> 0%Z ->
  hops v = [v] ->
  parse (VObject props) headers whitelist =
  Return {| ip := VString v; secure := false;
            port := port_number
                      (first_hop (header_or_empty headers "x-real-port")) |}.
Proof.
  intros H1 H2 H3 Hl Hv Hh.
  assert (Hm : matched_entry headers = Some x_real).
  { unfold matched_entry, proxies. cbn [List.find Proxy.ip].
    unfold has_header. rewrite H1, H2, H3, Hl.
    rewrite !bool_decide_eq_false_2 by (intros [? [=]]).
    rewrite bool_decide_eq_true_2 by eauto. reflexivity. }
  assert (Hval : valid_ips headers x_real = true).
  { unfold valid_ips, x_real. cbn [Proxy.ip].
    rewrite (header_or_empty_lookup _ _ _ Hl), Hh.
    unfold every_isIP. cbn [forallb].
    rewrite isIP_truthy, andb_true_r.
    destruct (Z.eqb_spec (net.isIP v) 0); [contradiction|reflexivity]. }
  rewrite (parse_proxied _ _ _ _ (forwarded_valid _ _ Hm Hval)).
  unfold x_real. cbn [Proxy.ip Proxy.port].
  rewrite (header_or_empty_lookup _ _ _ Hl).
  unfold first_hop at 1. rewrite Hh. reflexivity.
Qed.

Lemma x_real_ip_is_last_witness :
  parse (VObject some_socket) real_ip_headers VUndefined =
  Return {| ip := VString "198.51.100.7"; secure := false;
            port := port_number
                      (first_hop (header_or_empty real_ip_headers "x-real-port")) |}.
Proof.
  apply (x_real_ip_is_last some_socket real_ip_headers VUndefined "198.51.100.7").
  - vm_compute; reflexivity.
  - vm_compute; reflexivity.
  - vm_compute; reflexivity.
  - vm_compute; reflexivity.
  - vm_compute; discriminate.
  - vm_compute; reflexivity.
Defined.

(** X6. The header scan reads the two headers of the matched entry and
    nothing else: two header maps with the same matched entry and the same
    values for its IP and port headers give the same outcome. *)
Theorem only_matched_headers_are_read (h1 h2 : headers_t) (p : Proxy.t)
  (obj whitelist : value) :
  matched_entry h1 = Some p ->
  matched_entry h2 = Some p ->
  h1 !! Proxy.ip p = h2 !! Proxy.ip p ->
  h1 !! Proxy.port p = h2 !! Proxy.port p ->
  forwarded h1 = forwarded h2 /\
  parse obj h1 whitelist = parse obj h2 whitelist.
Proof.
  intros M1 M2 Hi Hp.
  assert (Hf : forwarded h1 = forwarded h2).
  { unfold forwarded.
    rewrite (forwarded_loop_matched _ _ _ M1), (forwarded_loop_matched _ _ _ M2).
    rewrite (header_or_empty_agree _ _ _ Hi), (header_or_empty_agree _ _ _ Hp).
    reflexivity. }
  split; [exact Hf|]. unfold parse. rewrite Hf. reflexivity.
Qed.

Lemma only_matched_headers_are_read_witness :
  forwarded single_hop_headers
  = forwarded (<["x-real-ip" := "192.0.2.1"]>
                 (<["x-forwarded-proto" := "https"]> single_hop_headers)) /\
  parse empty_object single_hop_headers VUndefined
  = parse empty_object
      (<["x-real-ip" := "192.0.2.1"]>
         (<["x-forwarded-proto" := "https"]> single_hop_headers)) VUndefined.
Proof.
  apply (only_matched_headers_are_read single_hop_headers
           (<["x-real-ip" := "192.0.2.1"]>
              (<["x-forwarded-proto" := "https"]> single_hop_headers))
           x_forwarded empty_object VUndefined); vm_compute; reflexivity.
Defined.

(** X7. A header whose name is not one of the eight IP and port header
    names of the table (the three [proto] names among them) has no effect:
    setting it or removing it changes nothing. *)
Theorem other_headers_have_no_effect (headers : headers_t) (name v : string)
  (obj whitelist : value) :
  ~ In name scanned_names ->
  parse obj (<[name := v]> headers) whitelist = parse obj headers whitelist /\
  parse obj (delete name headers) whitelist = parse obj headers whitelist.
Proof.
  intros Hn.
  assert (Hne : forall p, In p proxies ->
            name <> Proxy.ip p /\ name <> Proxy.port p).
  { intros p Hp. destruct (scanned_names_of p Hp) as [Hi Hq].
    split; intros ->; contradiction. }
  split; unfold parse, forwarded.
  - rewrite (forwarded_loop_agree proxies (<[name := v]> headers) headers);
      [reflexivity|].
    intros p Hp. destruct (Hne p Hp) as [Hi Hq].
    now rewrite !lookup_insert_ne.
  - rewrite (forwarded_loop_agree proxies (delete name headers) headers);
      [reflexivity|].
    intros p Hp. destruct (Hne p Hp) as [Hi Hq].
    now rewrite !lookup_delete_ne.
Qed.

Lemma other_headers_have_no_effect_witness :
  parse empty_object (<["x-forwarded-proto" := "https"]> single_hop_headers)
    VUndefined = parse empty_object single_hop_headers VUndefined /\
  parse empty_object (delete "x-forwarded-proto" single_hop_headers) VUndefined
  = parse empty_object single_hop_headers VUndefined.
Proof.
  apply (other_headers_have_no_effect single_hop_headers "x-forwarded-proto"
           "https" empty_object VUndefined).
  vm_compute. intuition discriminate.
Defined.

(** X8. When none of the four IP header names is a key, [parse] answers as
    on no headers at all, whatever else the headers hold. *)
Theorem no_recognized_header (headers : headers_t) (obj whitelist : value) :
  (forall p, In p proxies -> headers !! Proxy.ip p = None) ->
  forwarded headers = Return None /\
  parse obj headers whitelist = parse obj ∅ whitelist.
Proof.
  intros H.
  assert (Hf : forwarded headers = Return None).
  { unfold forwarded. revert H.
    induction proxies as [|q ps IH]; intros H; [reflexivity|].
    cbn [forwarded_loop]. unfold has_header at 1.
    rewrite (H q (or_introl eq_refl)).
    rewrite bool_decide_eq_false_2 by (intros [? [=]]). cbn [negb].
    apply IH. intros p Hp. apply H. now right. }
  split; [exact Hf|]. now apply parse_without_proxied.
Qed.

Lemma no_recognized_header_witness :
  forwarded ({[ "x-forwarded-port" := "443"; "host" := "example.org" ]} : headers_t)
  = Return None /\
  parse empty_object {[ "x-forwarded-port" := "443"; "host" := "example.org" ]}
    VUndefined = parse empty_object ∅ VUndefined.
Proof.
  apply (no_recognized_header
           {[ "x-forwarded-port" := "443"; "host" := "example.org" ]}
           empty_object VUndefined).
  intros p [<- | [<- | [<- | [<- | []]]]]; vm_compute; reflexivity.
Defined.

(** X9. A Result that comes from the headers carries a validated address:
    a string that [net.isIP] accepts, the first hop of a list whose hops all
    pass, with the port read from the same entry. *)
Theorem header_result_is_validated (headers : headers_t) (r : Forwarded_t) :
  forwarded headers = Return (Some r) ->
  exists p s,
    matched_entry headers = Some p /\
    valid_ips headers p = true /\
    s = first_hop (header_or_empty headers (Proxy.ip p)) /\
    net.isIP s <> 0%Z /\
    r = {| ip := VString s; secure := false;
           port := port_number
                     (first_hop (header_or_empty headers (Proxy.port p))) |}.
Proof.
  intros Hf.
  destruct (matched_entry headers) as [p|] eqn:Hm.
  2:{ unfold forwarded in Hf.
      rewrite (forwarded_loop_unmatched _ _ Hm) in Hf. discriminate. }
  destruct (valid_ips headers p) eqn:Hv.
  2:{ rewrite (forwarded_invalid _ _ Hm Hv) in Hf. discriminate. }
  exists p, (first_hop (header_or_empty headers (Proxy.ip p))).
  rewrite (forwarded_valid _ _ Hm Hv) in Hf. injection Hf as <-.
  split; [reflexivity|]. split; [exact Hv|]. split; [reflexivity|].
  split; [|reflexivity].
  unfold valid_ips in Hv.
  destruct (hops_first (header_or_empty headers (Proxy.ip p))) as [rest Hr].
  rewrite Hr in Hv. unfold every_isIP in Hv. cbn [forallb] in Hv.
  apply andb_true_iff in Hv as [Hv _]. rewrite isIP_truthy in Hv.
  intros E. rewrite E in Hv. discriminate.
Qed.

Lemma header_result_is_validated_witness :
  exists p s,
    matched_entry two_hops_no_space_headers = Some p /\
    valid_ips two_hops_no_space_headers p = true /\
    s = first_hop (header_or_empty two_hops_no_space_headers (Proxy.ip p)) /\
    net.isIP s <> 0%Z /\
    {| ip := VString "203.0.113.5"; secure := false; port := Number.of_Z 443 |}
    = {| ip := VString s; secure := false;
         port := port_number
                   (first_hop (header_or_empty two_hops_no_space_headers
                                 (Proxy.port p))) |}.
Proof.
  apply (header_result_is_validated two_hops_no_space_headers).
  vm_compute; reflexivity.
Defined.

(** ** Invariants of the Result and abrupt completions *)

(** X10. The address of every Result that [parse] returns is truthy: it is
    the supplied address (the first hop of the matched entry's IP header, or
    the address of the first applicable transport shape) when that is
    truthy, and ["127.0.0.1"] when it is missing, [null] or empty. *)
Theorem ip_is_never_falsy (obj : value) (headers : headers_t)
  (whitelist : value) (r : Forwarded_t) :
  parse obj headers whitelist = Return r ->
  ToBoolean (ip r) = true /\
  ip r = if ToBoolean (supplied_address obj headers)
         then supplied_address obj headers else VString "127.0.0.1".
Proof.
  intros H. apply parse_arguments in H.
  unfold Forwarded in H. apply bind_Return in H as (n & _ & [= <-]).
  cbn [ip]. split; [|reflexivity].
  destruct (ToBoolean (supplied_address obj headers)) eqn:E;
    [exact E|reflexivity].
Qed.

Lemma ip_is_never_falsy_witness :
  let obj := VObject {[ "remoteAddress" := VString "" ]} in
  let r := default_Forwarded in
  parse obj ∅ VUndefined = Return r /\
  ToBoolean (ip r) = true /\
  ip r = if ToBoolean (supplied_address obj ∅)
         then supplied_address obj ∅ else VString "127.0.0.1".
Proof.
  intros obj r.
  assert (H : parse obj ∅ VUndefined = Return r) by (vm_compute; reflexivity).
  split; [exact H|].
  exact (ip_is_never_falsy obj ∅ VUndefined r H).
Defined.

(** The supplied address of the sample is the empty string; that of a
    socket is its [remoteAddress]. *)
Example supplied_address_samples :
  supplied_address (VObject {[ "remoteAddress" := VString "" ]}) ∅ = VString "" /\
  supplied_address (VObject some_socket) ∅ = VString "10.0.0.1" /\
  supplied_address (VObject some_socket) single_hop_headers
  = VString "203.0.113.5".
Proof. split; [|split]; vm_compute; reflexivity. Qed.

(** X11. On [null] or [undefined] in place of the object, [parse] throws,
    also when the headers hold a valid address: [obj.connection] is read
    before the header-based Result is looked at. *)
Theorem nullish_object_throws (headers : headers_t) (whitelist : value) :
  parse VNull headers whitelist = Throw TypeError /\
  parse VUndefined headers whitelist = Throw TypeError.
Proof.
  destruct (forwarded_loop_returns proxies headers) as [proxied Hf].
  unfold parse, forwarded. rewrite Hf. split; reflexivity.
Qed.

(** X12. A primitive in place of the object (a string, a number, a boolean)
    is treated as an object without properties. *)
Theorem primitive_object_is_empty (obj : value) (headers : headers_t)
  (whitelist : value) :
  is_primitive obj = true ->
  parse obj headers whitelist = parse (VObject ∅) headers whitelist.
Proof.
  intros Hp. unfold parse.
  destruct (forwarded headers) as [[r|]|e]; [| |reflexivity];
    destruct obj; try discriminate Hp; reflexivity.
Qed.

Lemma primitive_object_is_empty_witness :
  parse (VString "socket") single_hop_headers VUndefined =
  parse (VObject ∅) single_hop_headers VUndefined.
Proof.
  apply (primitive_object_is_empty (VString "socket") single_hop_headers
           VUndefined).
  reflexivity.
Defined.

(** X13. Without a header-based Result, on an object with no
    [remoteAddress] and no [address]/[port] pair, a [null] connection makes
    [parse] throw, and so does a [null] derived socket once the connection
    test has answered false. *)
Theorem null_connection_or_socket_throws (props : gmap string value)
  (headers : headers_t) (whitelist connection socket : value) :
  forwarded headers = Return None ->
  props !! "remoteAddress" = None ->
  props !! "address" = None \/ props !! "port" = None ->
  Get (VObject props) "connection" = Return connection ->
  (if ToBoolean connection then Get connection "socket"
   else Get (VObject props) "socket") = Return socket ->
  connection = VNull \/
  (object_with "remoteAddress" connection = Return false /\ socket = VNull) ->
  parse (VObject props) headers whitelist = Throw TypeError.
Proof.
  intros Hf Hr Hap Hc Hs Hnull.
  unfold parse. rewrite Hf. cbn [bind]. rewrite Hc. cbn [bind].
  rewrite Hs. cbn [bind]. unfold or_else at 1. cbn [bind].
  change (is_object_type (VObject props)) with true. cbv iota.
  rewrite (obj_statement_falls_through _ Hr Hap).
  unfold or_else at 1. cbn [bind].
  destruct Hnull as [-> | [Hnc ->]].
  - reflexivity.
  - rewrite Hnc. reflexivity.
Qed.

Lemma null_connection_or_socket_throws_witness :
  parse (VObject {[ "connection" := VObject {[ "socket" := VNull ]};
                    "address" := VString "10.1.1.1" ]}) ∅ VUndefined
  = Throw TypeError.
Proof.
  apply (null_connection_or_socket_throws
           {[ "connection" := VObject {[ "socket" := VNull ]};
              "address" := VString "10.1.1.1" ]}
           ∅ VUndefined (VObject {[ "socket" := VNull ]}) VNull).
  - reflexivity.
  - vm_compute; reflexivity.
  - right. vm_compute; reflexivity.
  - vm_compute; reflexivity.
  - vm_compute; reflexivity.
  - right. split; [vm_compute; reflexivity | reflexivity].
Defined.

Lemma Get_of_plain (props : gmap string value) k v :
  map_Forall (fun _ x => returns (ToNumber x)) props ->
  Get (VObject props) k = Return v -> returns (ToNumber v).
Proof.
  intros Hall [= <-]. destruct (props !! k) as [x|] eqn:E; cbn [default].
  - exact (Hall _ _ E).
  - eexists; reflexivity.
Qed.

(** The sample with a wrapped connection meets the conditions under which
    [parse] returns. *)
Lemma parse_returns_witness :
  returns (parse (VObject wrapped_connection) ∅ VUndefined).
Proof.
  apply (parse_returns wrapped_connection ∅ VUndefined
           (VObject {[ "remoteAddress" := VString "10.0.0.9";
                       "remotePort" := VNumber (Number.of_Z 8080) ]})
           VUndefined).
  - vm_compute; reflexivity.
  - vm_compute; reflexivity.
  - discriminate.
  - discriminate.
  - intros o k v Ho Hg.
    apply list_elem_of_In in Ho. destruct Ho as [<- | [<- | [<- | []]]].
    + revert Hg. apply Get_of_plain. unfold wrapped_connection.
      apply map_Forall_singleton. eexists; reflexivity.
    + revert Hg. apply Get_of_plain.
      apply map_Forall_insert_2; [eexists; reflexivity|].
      apply map_Forall_singleton. eexists; reflexivity.
    + discriminate Hg.
Defined.

(** ** Hops and the characters of a validated address *)

Lemma concat_String sep c t ts :
  String.concat sep (String c t :: ts) = String c (String.concat sep (t :: ts)).
Proof. destruct ts; reflexivity. Qed.

Lemma String_split_join sep s :
  String.concat (String sep EmptyString) (String_split sep s) = s.
Proof.
  induction s as [|c s IH]; [reflexivity|].
  cbn [String_split]. destruct (Ascii.eqb_spec c sep) as [-> | Hne].
  - destruct (String_split sep s) as [|t ts] eqn:E.
    + now apply String_split_nonempty in E.
    + change (String.concat (String sep "") ("" :: t :: ts))
        with (String sep (String.concat (String sep "") (t :: ts))).
      now rewrite IH.
  - destruct (String_split sep s) as [|t ts] eqn:E.
    + now apply String_split_nonempty in E.
    + now rewrite concat_String, IH.
Qed.

Lemma String_split_no_sep sep s :
  Forall (fun t => ~ In sep (chars t)) (String_split sep s).
Proof.
  induction s as [|c s IH]; cbn [String_split].
  - constructor; [intros []|constructor].
  - destruct (Ascii.eqb_spec c sep) as [-> | Hne].
    + constructor; [intros []|exact IH].
    + destruct (String_split sep s) as [|t ts]; [repeat constructor|].
      * intros [E | []]. now apply Hne.
      * inversion IH as [|? ? Ht Hts]; subst. constructor; [|exact Hts].
        intros [E | Hin]; [now apply Hne | now apply Ht].
Qed.

Lemma String_split_covers sep s c :
  In c (chars s) -> c <> sep ->
  exists t, In t (String_split sep s) /\ In c (chars t).
Proof.
  induction s as [|c0 s IH]; [intros []|].
  intros Hin Hne. cbn [String_split].
  destruct (Ascii.eqb_spec c0 sep) as [-> | Hne0].
  - destruct Hin as [E | Hin]; [now subst|].
    destruct (IH Hin Hne) as (t & Ht & Hc). exists t. split; [now right|exact Hc].
  - destruct (String_split sep s) as [|t ts] eqn:E.
    + now apply String_split_nonempty in E.
    + destruct Hin as [<- | Hin].
      * exists (String c0 t). split; [now left|now left].
      * destruct (IH Hin Hne) as (t' & [<- | Ht'] & Hc).
        -- exists (String c0 t). split; [now left|now right].
        -- exists t'. split; [now right|exact Hc].
Qed.

(** X14. The hops of a header value, joined with commas, give the value
    back, and no hop contains a comma. *)
Theorem hops_rejoin (v : string) :
  String.concat "," (hops v) = v /\
  Forall (fun hop => ~ In ","%char (chars hop)) (hops v).
Proof.
  split; [apply String_split_join | apply String_split_no_sep].
Qed.

Lemma deriv_not_mentioned c r :
  mentions c r = false -> RegExp.deriv c r = RegExp.Void.
Proof.
  induction r as [| |p|r1 IH1 r2 IH2|r1 IH1 r2 IH2|r1 IH1];
    cbn [mentions RegExp.deriv]; intros H; try reflexivity.
  - now rewrite H.
  - apply orb_false_iff in H as [H1 H2]. rewrite (IH1 H1), (IH2 H2).
    destruct (RegExp.nullable r1); reflexivity.
  - apply orb_false_iff in H as [H1 H2]. now rewrite (IH1 H1), (IH2 H2).
  - now rewrite (IH1 H).
Qed.

Lemma mentions_seq c r1 r2 :
  mentions c (RegExp.seq r1 r2) = true -> mentions c r1 || mentions c r2 = true.
Proof.
  destruct r1, r2; cbn [RegExp.seq mentions]; intros H;
    try discriminate H; try exact H;
    rewrite ?orb_false_r, ?orb_false_l in *; try exact H.
Qed.

Lemma mentions_alt c r1 r2 :
  mentions c (RegExp.alt r1 r2) = true -> mentions c r1 || mentions c r2 = true.
Proof.
  destruct r1, r2; cbn [RegExp.alt mentions]; intros H;
    try discriminate H; try exact H;
    rewrite ?orb_false_r, ?orb_false_l in *; try exact H.
Qed.

Lemma mentions_deriv c' c r :
  mentions c' (RegExp.deriv c r) = true -> mentions c' r = true.
Proof.
  induction r as [| |p|r1 IH1 r2 IH2|r1 IH1 r2 IH2|r1 IH1];
    cbn [RegExp.deriv mentions]; intros H; try discriminate H.
  - destruct (p c); discriminate H.
  - apply mentions_alt in H. apply orb_true_iff in H as [H | H].
    + apply mentions_seq in H. apply orb_true_iff in H as [H | H];
        apply orb_true_iff; [left; now apply IH1 | now right].
    + destruct (RegExp.nullable r1); [|discriminate H].
      apply orb_true_iff. right. now apply IH2.
  - apply mentions_alt in H. apply orb_true_iff in H as [H | H];
      apply orb_true_iff; [left; now apply IH1 | right; now apply IH2].
  - apply mentions_seq in H. cbn [mentions] in H.
    apply orb_true_iff in H as [H | H]; [now apply IH1 | exact H].
Qed.

Lemma test_Void s : RegExp.test RegExp.Void s = false.
Proof. induction s; [reflexivity | exact IHs]. Qed.

(** A string that matches a pattern is made of characters that the pattern
    mentions. *)
Lemma test_mentions r s :
  RegExp.test r s = true -> Forall (fun c => mentions c r = true) (chars s).
Proof.
  revert r. induction s as [|c s IH]; intros r H; [constructor|].
  cbn [RegExp.test] in H. constructor.
  - destruct (mentions c r) eqn:E; [reflexivity|].
    rewrite (deriv_not_mentioned _ _ E), test_Void in H. discriminate H.
  - eapply Forall_impl; [exact (IH _ H)|].
    intros c'. apply mentions_deriv.
Qed.

Lemma mentions_ip_char c :
  mentions c net.IPv4Reg || mentions c net.IPv6Reg = ip_char c.
Proof.
  destruct c as [[] [] [] [] [] [] [] []]; vm_compute; reflexivity.
Qed.

Lemma isIP_chars s :
  net.isIP s <> 0%Z -> Forall (fun c => ip_char c = true) (chars s).
Proof.
  unfold net.isIP, net.isIPv4, net.isIPv6. intros H.
  destruct (RegExp.test net.IPv4Reg s) eqn:E4.
  - eapply Forall_impl; [exact (test_mentions _ _ E4)|].
    intros c Hc. rewrite <- mentions_ip_char, Hc. reflexivity.
  - destruct (RegExp.test net.IPv6Reg s) eqn:E6; [|contradiction].
    eapply Forall_impl; [exact (test_mentions _ _ E6)|].
    intros c Hc. rewrite <- mentions_ip_char, Hc. apply orb_true_r.
Qed.

(** X15. When the IP header value of the matched entry holds a character
    that is neither a comma nor a character of an IP address (a space, for
    one), the header scan gives nothing and [parse] answers as on no
    headers. *)
Theorem foreign_character_rejects_header (headers : headers_t) (p : Proxy.t)
  (c : ascii) (obj whitelist : value) :
  matched_entry headers = Some p ->
  In c (chars (header_or_empty headers (Proxy.ip p))) ->
  c <> ","%char ->
  ip_char c = false ->
  forwarded headers = Return None /\
  parse obj headers whitelist = parse obj ∅ whitelist.
Proof.
  intros Hm Hin Hne Hc.
  assert (Hv : valid_ips headers p = false).
  { unfold valid_ips, hops, every_isIP.
    destruct (String_split_covers _ _ _ Hin Hne) as (t & Ht & Hct).
    apply not_true_is_false. intros Hall.
    rewrite forallb_forall in Hall. specialize (Hall t Ht).
    rewrite isIP_truthy in Hall.
    assert (Hip : net.isIP t <> 0%Z)
      by (intros E; rewrite E in Hall; discriminate Hall).
    pose proof (isIP_chars _ Hip) as Hchars.
    rewrite Forall_forall in Hchars.
    rewrite (Hchars c (proj2 (list_elem_of_In _ _) Hct)) in Hc.
    discriminate Hc. }
  pose proof (forwarded_invalid _ _ Hm Hv) as Hf.
  split; [exact Hf | now apply parse_without_proxied].
Qed.

Lemma foreign_character_rejects_header_witness :
  forwarded two_hops_headers = Return None /\
  parse (VObject some_socket) two_hops_headers VUndefined
  = parse (VObject some_socket) ∅ VUndefined.
Proof.
  apply (foreign_character_rejects_header two_hops_headers x_forwarded " "
           (VObject some_socket) VUndefined).
  - vm_compute; reflexivity.
  - vm_compute. tauto.
  - discriminate.
  - reflexivity.
Defined.

(** X16. The address of a Result that comes from the headers is a non-empty
    string of digits, letters and [.], [:], [%], [-]: it holds no comma and
    no white space. *)
Theorem header_address_characters (headers : headers_t) (r : Forwarded_t) :
  forwarded headers = Return (Some r) ->
  exists s, ip r = VString s /\ s <> "" /\
    Forall (fun c => ip_char c = true) (chars s).
Proof.
  intros Hf.
  destruct (matched_entry headers) as [p|] eqn:Hm.
  2:{ unfold forwarded in Hf.
      rewrite (forwarded_loop_unmatched _ _ Hm) in Hf. discriminate. }
  destruct (valid_ips headers p) eqn:Hv.
  2:{ rewrite (forwarded_invalid _ _ Hm Hv) in Hf. discriminate. }
  rewrite (forwarded_valid _ _ Hm Hv) in Hf. injection Hf as <-.
  exists (first_hop (header_or_empty headers (Proxy.ip p))).
  split; [reflexivity|].
  unfold valid_ips in Hv.
  destruct (hops_first (header_or_empty headers (Proxy.ip p))) as [rest Hr].
  rewrite Hr in Hv. unfold every_isIP in Hv. cbn [forallb] in Hv.
  apply andb_true_iff in Hv as [Hv _]. rewrite isIP_truthy in Hv.
  assert (Hip : net.isIP (first_hop (header_or_empty headers (Proxy.ip p)))
                <> 0%Z) by (intros E; rewrite E in Hv; discriminate Hv).
  split; [|now apply isIP_chars].
  intros E. rewrite E in Hip. now apply Hip.
Qed.

Lemma header_address_characters_witness :
  exists s,
    ip {| ip := VString "203.0.113.5"; secure := false;
          port := Number.of_Z 443 |} = VString s /\ s <> "" /\
    Forall (fun c => ip_char c = true) (chars s).
Proof.
  apply (header_address_characters two_hops_no_space_headers).
  vm_compute; reflexivity.
Defined.

(** X17. An empty hop in the IP header value of the matched entry (the value
    is empty, ends with a comma, or has two commas in a row) makes the header
    scan give nothing. *)
Theorem empty_hop_rejects_header (headers : headers_t) (p : Proxy.t)
  (obj whitelist : value) :
  matched_entry headers = Some p ->
  In "" (hops (header_or_empty headers (Proxy.ip p))) ->
  forwarded headers = Return None /\
  parse obj headers whitelist = parse obj ∅ whitelist.
Proof.
  intros Hm Hin.
  assert (Hv : valid_ips headers p = false).
  { unfold valid_ips, every_isIP. apply not_true_is_false. intros Hall.
    rewrite forallb_forall in Hall. specialize (Hall "" Hin).
    rewrite isIP_truthy, isIP_empty in Hall. discriminate Hall. }
  pose proof (forwarded_invalid _ _ Hm Hv) as Hf.
  split; [exact Hf | now apply parse_without_proxied].
Qed.

Lemma empty_hop_rejects_header_witness :
  forwarded ({[ "x-forwarded-for" := "203.0.113.5,";
                "z-forwarded-for" := "198.51.100.7" ]} : headers_t)
  = Return None /\
  parse empty_object {[ "x-forwarded-for" := "203.0.113.5,";
                        "z-forwarded-for" := "198.51.100.7" ]} VUndefined
  = parse empty_object ∅ VUndefined.
Proof.
  apply (empty_hop_rejects_header
           {[ "x-forwarded-for" := "203.0.113.5,";
              "z-forwarded-for" := "198.51.100.7" ]}
           x_forwarded empty_object VUndefined).
  - vm_compute; reflexivity.
  - vm_compute. tauto.
Defined.

(** ** The derived socket *)

(** X18. When the object's [connection] is truthy, the socket is taken from
    the connection and the object's own [socket] property is never
    consulted: setting it changes nothing. *)
Theorem own_socket_is_masked (props : gmap string value)
  (headers : headers_t) (whitelist connection v : value) :
  props !! "connection" = Some connection ->
  ToBoolean connection = true ->
  parse (VObject (<["socket" := v]> props)) headers whitelist =
  parse (VObject props) headers whitelist.
Proof.
  intros Hc Ht. unfold parse.
  destruct (forwarded headers) as [proxied|e]; [|reflexivity].
  cbn [bind Get HasProperty].
  change (is_object_type (VObject (<["socket" := v]> props))) with true.
  change (is_object_type (VObject props)) with true. cbv iota.
  rewrite (lookup_insert_ne props "socket" "connection") by discriminate.
  rewrite Hc. cbn [from_option]. unfold id. rewrite Ht. cbv iota.
  rewrite !lookup_insert_ne by discriminate. reflexivity.
Qed.

Lemma own_socket_is_masked_witness :
  parse (VObject (<["socket" := VObject {[ "remoteAddress" := VString "10.0.0.7" ]}]>
                    {[ "connection" := VObject ∅ ]})) ∅ VUndefined =
  parse (VObject {[ "connection" := VObject ∅ ]}) ∅ VUndefined.
Proof.
  apply (own_socket_is_masked {[ "connection" := VObject ∅ ]} ∅ VUndefined
           (VObject ∅)).
  - vm_compute; reflexivity.
  - reflexivity.
Defined.

(** The socket of the sample is masked by the empty connection: the Result
    is the default one. *)
Example masked_socket_default :
  parse (VObject {[ "connection" := VObject ∅;
                    "socket" := VObject {[ "remoteAddress" := VString "10.0.0.7" ]} ]})
    ∅ VUndefined = Return default_Forwarded.
Proof. vm_compute; reflexivity. Qed.
